(** * openevolve_eval.py: the OpenEvolve evaluator of the cache_ext
      file-search benchmark

    A shallow embedding of [src/openevolve_eval.py] and the properties its
    specification states about it.

    - Python [float] is IEEE binary64, here [spec_float] at precision 53
      and maximal exponent 1024, with the operations of the Standard
      Library's [SpecFloat].
    - A Python [str] is a [string] whose characters are the code points
      below 256.
    - A [dict] keyed by strings is a [gmap string _]; a decoded JSON
      object is an association list (its keys are distinct, as [json.load]
      leaves them).
    - The operating system (files, sub-processes, the clock) is an
      interface [Host] over an abstract state; the program threads that
      state and a record of the side-effecting calls it makes.
    - [print] only writes to the log and is left out. *)

From Stdlib Require Import ZArith QArith Qpower Bool Ascii String List Lia.
From Stdlib Require Import SpecFloat.
From stdpp Require Import base option list strings gmap pretty.

Set Warnings "-clear-no-such-hyp".

Local Open Scope Z_scope.
Local Open Scope string_scope.

(** ** Python exceptions *)

Inductive pyexc :=
| OSError
| JSONDecodeError
| UnicodeDecodeError
| AttributeError
| TypeError
| ValueError
| OverflowError.

(** A computation that returns a value or raises. *)
Definition result (A : Type) : Type := pyexc + A.

Definition ret {A} (a : A) : result A := inr a.
Definition raise {A} (e : pyexc) : result A := inl e.
Definition bind {A B} (m : result A) (k : A -> result B) : result B :=
  match m with
  | inl e => inl e
  | inr a => k a
  end.

Notation "'let*' x := m 'in' k" := (bind m (fun x => k))
  (at level 10, x name, m at level 100, k at level 200).

(** ** Floats *)

Module Float.

Definition prec : Z := 53.
Definition emax : Z := 1024.

Definition float := spec_float.

Definition pos_zero : float := S754_zero false.
Definition neg_inf : float := S754_infinity true.
Definition pos_inf : float := S754_infinity false.
Definition nan : float := S754_nan.

Definition neg (x : float) : float := SFopp x.
Definition add (x y : float) : float := SFadd prec emax x y.
Definition div (x y : float) : float := SFdiv prec emax x y.

(** The float nearest to the integer [z] (ties to even); an infinity
    when [z] is out of range. *)
Definition round_Z (z : Z) : float := binary_normalize prec emax z 0 false.

(** The float nearest to [m * 2^e]. *)
Definition round_dyadic (m e : Z) : float := binary_normalize prec emax m e false.

(** The float nearest to the quotient [n / d] of two integers, [d > 0].
    A zero numerator gives [0.0]. *)
Definition round_ratio (n : Z) (d : positive) : float :=
  match n with
  | Z0 => pos_zero
  | Zpos p => div (S754_finite false p 0) (S754_finite false d 0)
  | Zneg p => div (S754_finite true p 0) (S754_finite false d 0)
  end.

Definition is_finite (x : float) : bool :=
  match x with
  | S754_zero _ | S754_finite _ _ _ => true
  | _ => false
  end.

(** [float(n)] of an [int]: [OverflowError] when the nearest float is not
    finite. *)
Definition of_int (z : Z) : result float :=
  let f := round_Z z in
  if is_finite f then ret f else raise OverflowError.

(** [float(len(xs))]: a length never overflows. *)
Definition of_nat (n : nat) : float := round_Z (Z.of_nat n).

(** *** [statistics.mean] on floats

    [_sum] adds the data as exact fractions. A finite float is the dyadic
    [m * 2^e]; the running sum is kept as such a pair. *)
Definition exact_ratio (x : float) : option (Z * Z) :=
  match x with
  | S754_zero _ => Some (0, 0)
  | S754_finite s m e => Some (cond_Zopp s (Zpos m), e)
  | _ => None
  end.

Definition dyadic_add (a b : Z * Z) : Z * Z :=
  let '(m1, e1) := a in
  let '(m2, e2) := b in
  let e := Z.min e1 e2 in
  (m1 * 2 ^ (e1 - e) + m2 * 2 ^ (e2 - e), e).

(** [partials]: the exact sum of the finite values, and under the key
    [None] the float sum of the others, if any. *)
Fixpoint _sum (data : list float) (fin : Z * Z) (special : option float)
  : (Z * Z) * option float :=
  match data with
  | [] => (fin, special)
  | x :: rest =>
      match exact_ratio x with
      | Some r => _sum rest (dyadic_add fin r) special
      | None =>
          _sum rest fin
            (Some (match special with
                   | None => x
                   | Some t => add t x
                   end))
      end
  end.

(** The exact quotient [(m * 2^e) / n] rounded once, as [Fraction.__float__]
    does. *)
Definition dyadic_div (m e : Z) (n : positive) : float :=
  match m with
  | Z0 => pos_zero
  | Zpos p => div (S754_finite false p e) (S754_finite false n 0)
  | Zneg p => div (S754_finite true p e) (S754_finite false n 0)
  end.

(** [mean(data)] for a non-empty [data] (the caller tests that). *)
Definition mean (data : list float) : float :=
  let n := Pos.of_nat (length data) in
  match _sum data (0, 0) None with
  | (_, Some total) => div total (round_Z (Zpos n))
  | ((m, e), None) => dyadic_div m e n
  end.

(** *** The rational value of a float, to state what [mean] rounds *)

Definition dyadic_Q (d : Z * Z) : Q := (inject_Z d.1 * Qpower 2 d.2)%Q.

(** The value of a finite float (0 for the others). *)
Definition value (x : float) : Q :=
  match exact_ratio x with
  | Some d => dyadic_Q d
  | None => 0%Q
  end.

(** The exact sum of the values. *)
Fixpoint total (data : list float) : Q :=
  match data with
  | [] => 0%Q
  | x :: rest => (value x + total rest)%Q
  end.

End Float.

Abbreviation float := Float.float.

(** ** Strings *)

Module Str.

(** The white space [str.strip] removes (code points below 256). *)
Definition is_space (c : ascii) : bool :=
  let n := nat_of_ascii c in
  (((9 <=? n) && (n <=? 13)) || ((28 <=? n) && (n <=? 32))
   || (n =? 133) || (n =? 160))%nat.

Fixpoint lstrip (space : ascii → bool) (s : string) : string :=
  match s with
  | String c r => if space c then lstrip space r else s
  | EmptyString => EmptyString
  end.

(** Drops the trailing white space: a character is kept when it is not
    white space or something non-blank follows it. *)
Fixpoint rstrip (space : ascii → bool) (s : string) : string :=
  match s with
  | String c r =>
      match rstrip space r with
      | EmptyString => if space c then EmptyString else String c EmptyString
      | r' => String c r'
      end
  | EmptyString => EmptyString
  end.

(** [s.strip()] *)
Definition strip (s : string) : string := rstrip is_space (lstrip is_space s).

(** [s.split(sep)] for a one-character separator. *)
Fixpoint split (sep : ascii) (s : string) : list string :=
  match s with
  | EmptyString => [EmptyString]
  | String c r =>
      if Ascii.eqb c sep then EmptyString :: split sep r
      else match split sep r with
           | x :: xs => String c x :: xs
           | [] => [String c EmptyString]
           end
  end.

(** [sep.join(parts)] *)
Fixpoint join (sep : string) (parts : list string) : string :=
  match parts with
  | [] => EmptyString
  | [x] => x
  | x :: xs => x ++ sep ++ join sep xs
  end.

(** [s.rfind(c)]: the index of the last occurrence of [c]. *)
Fixpoint rfind (c : ascii) (s : string) : option nat :=
  match s with
  | EmptyString => None
  | String d r =>
      match rfind c r with
      | Some i => Some (S i)
      | None => if Ascii.eqb d c then Some O else None
      end
  end.

(** [s[i:]] *)
Fixpoint drop (i : nat) (s : string) : string :=
  match i, s with
  | O, _ => s
  | S i', String _ r => drop i' r
  | S _, EmptyString => EmptyString
  end.

Definition starts_with (p s : string) : bool := String.prefix p s.

End Str.

(** ** Paths ([pathlib.PurePosixPath], as text) *)

Module Path.

Definition slash : ascii := "/"%char.

(** The root of a path: two leading slashes (exactly) are kept, any
    other number of them is one. *)
Definition root (s : string) : string :=
  if Str.starts_with "///" s then "/"
  else if Str.starts_with "//" s then "//"
  else if Str.starts_with "/" s then "/"
  else "".

(** The components: empty ones and ["."] are dropped. *)
Definition parts (s : string) : list string :=
  List.filter (fun x => negb (String.eqb x "" || String.eqb x "."))
              (Str.split slash s).

(** [str(Path(s))] *)
Definition Path (s : string) : string :=
  match root s, parts s with
  | EmptyString, [] => "."
  | r, ps => r ++ Str.join "/" ps
  end.

Fixpoint ends_with_slash (s : string) : bool :=
  match s with
  | EmptyString => false
  | String c EmptyString => Ascii.eqb c slash
  | String _ r => ends_with_slash r
  end.

(** [p / name]: the two are joined as [posixpath.join] does, and the
    text is parsed again. *)
Definition joinpath (p name : string) : string :=
  if Str.starts_with "/" name then Path name
  else if String.eqb p "" || ends_with_slash p then Path (p ++ name)
  else Path (p ++ "/" ++ name).

(** [p.name]: the last component, or the empty string. *)
Definition name (p : string) : string := List.last (parts p) "".

(** [p.suffix]: from the last dot of the name on, when that dot is
    neither its first nor its last character. *)
Definition suffix (p : string) : string :=
  let n := name p in
  match Str.rfind "."%char n with
  | Some i =>
      if ((0 <? i) && (i <? String.length n - 1))%nat then Str.drop i n else ""
  | None => ""
  end.

End Path.

(** ** [float(s)] for a string [s] *)

Module FloatOfStr.

Definition is_digit (c : ascii) : bool :=
  let n := nat_of_ascii c in ((48 <=? n) && (n <=? 57))%nat.

Definition digit_val (c : ascii) : Z := Z.of_nat (nat_of_ascii c) - 48.

Definition lower (c : ascii) : ascii :=
  let n := nat_of_ascii c in
  if ((65 <=? n) && (n <=? 90))%nat then ascii_of_nat (n + 32) else c.

Fixpoint lower_str (s : string) : string :=
  match s with
  | EmptyString => EmptyString
  | String c r => String (lower c) (lower_str r)
  end.

Definition underscore : ascii := "_"%char.

(** Underscores are removed; each must stand between two digits.
    [prev] is the character before [s]. *)
Fixpoint drop_underscores (prev : ascii) (s : string) : option string :=
  match s with
  | EmptyString => if Ascii.eqb prev underscore then None else Some EmptyString
  | String c r =>
      if Ascii.eqb c underscore then
        if is_digit prev then drop_underscores c r else None
      else if Ascii.eqb prev underscore && negb (is_digit c) then None
      else String c <$> drop_underscores c r
  end.

(** The longest prefix of digits, and what follows it. *)
Fixpoint span_digits (s : string) : string * string :=
  match s with
  | String c r =>
      if is_digit c then
        let '(ds, rest) := span_digits r in (String c ds, rest)
      else (EmptyString, s)
  | EmptyString => (EmptyString, EmptyString)
  end.

Fixpoint digits_value (acc : Z) (ds : string) : Z :=
  match ds with
  | EmptyString => acc
  | String c r => digits_value (10 * acc + digit_val c) r
  end.

(** The white space [float] skips at both ends: the C white space, and
    the white space above the ASCII range. The separators 28 to 31, which
    [str.strip] removes, are not part of it. *)
Definition is_space (c : ascii) : bool :=
  let n := nat_of_ascii c in
  (((9 <=? n) && (n <=? 13)) || (n =? 32) || (n =? 133) || (n =? 160))%nat.

Definition strip (s : string) : string :=
  Str.rstrip is_space (Str.lstrip is_space s).

(** An optional sign: [true] for a minus. *)
Definition take_sign (s : string) : bool * string :=
  match s with
  | String "-" r => (true, r)
  | String "+" r => (false, r)
  | _ => (false, s)
  end.

(** The exponent part, which must reach the end of the text. *)
Definition parse_exponent (s : string) : option Z :=
  match s with
  | EmptyString => Some 0
  | String c r =>
      if Ascii.eqb (lower c) "e"%char then
        let '(neg, r1) := take_sign r in
        match span_digits r1 with
        | (EmptyString, _) => None
        | (ds, EmptyString) => Some (cond_Zopp neg (digits_value 0 ds))
        | _ => None
        end
      else None
  end.

(** The float nearest to [(-1)^neg * d * 10^x], [d >= 0]. *)
Definition decimal (neg : bool) (d x : Z) : float :=
  match d with
  | Zpos p =>
      if (0 <=? x)%Z then binary_round Float.prec Float.emax neg (p * Z.to_pos (10 ^ x)) 0
      else Float.div (S754_finite neg p 0)
                     (S754_finite false (Z.to_pos (10 ^ (- x))) 0)
  | _ => S754_zero neg
  end.

(** [digits [. digits] [exponent]] or [. digits [exponent]] *)
Definition parse_number (neg : bool) (s : string) : option float :=
  let '(ip, r1) := span_digits s in
  let '(fp, r2) :=
    match r1 with
    | String "." r => span_digits r
    | _ => (EmptyString, r1)
    end in
  if String.eqb ip "" && String.eqb fp "" then None
  else
    x ← parse_exponent r2;
    Some (decimal neg (digits_value 0 (ip ++ fp))
                  (x - Z.of_nat (String.length fp))).

Definition parse_inf_or_nan (neg : bool) (s : string) : option float :=
  let t := lower_str s in
  if String.eqb t "inf" || String.eqb t "infinity" then Some (S754_infinity neg)
  else if String.eqb t "nan" then Some S754_nan
  else None.

(** [float(s)]: [None] stands for [ValueError]. *)
Definition parse (s : string) : option float :=
  t ← drop_underscores Ascii.zero s;
  let '(neg, body) := take_sign (strip t) in
  match parse_number neg body with
  | Some f => Some f
  | None => parse_inf_or_nan neg body
  end.

End FloatOfStr.

(** ** Decoded JSON *)

#[warnings="-register-all"]
Inductive json :=
| JNull
| JBool (b : bool)
| JInt (z : Z)
| JFloat (f : float)
| JStr (s : string)
| JList (items : list json)
| JObj (fields : list (string * json)).

(** The value under [key] in the fields of a [dict]. *)
Fixpoint lookup_field (key : string) (fields : list (string * json)) : option json :=
  match fields with
  | [] => None
  | (k, v) :: rest => if String.eqb k key then Some v else lookup_field key rest
  end.

(** [obj.get(key, default)]: only a [dict] has the method. *)
Definition py_get (obj : json) (key : string) (dflt : json) : result json :=
  match obj with
  | JObj fields => ret (default dflt (lookup_field key fields))
  | _ => raise AttributeError
  end.

(** [float(x)] *)
Definition py_float (x : json) : result float :=
  match x with
  | JNull => raise TypeError
  | JBool b => ret (Float.round_Z (if b then 1 else 0))
  | JInt z => Float.of_int z
  | JFloat f => ret f
  | JStr s =>
      match FloatOfStr.parse s with
      | Some f => ret f
      | None => raise ValueError
      end
  | JList _ | JObj _ => raise TypeError
  end.

(** [x != s] for a string [s]: values of other types differ from it. *)
Definition differs_from_str (x : json) (s : string) : bool :=
  match x with
  | JStr t => negb (String.eqb t s)
  | _ => true
  end.

(** ** The host system

    What the evaluator asks of the operating system, over an abstract
    state [S] of the machine. A call that can change the machine returns
    the new state. File-system calls without a handler in the source
    ([exists], [is_file], [resolve], [mkdir], [subprocess.run]) are taken
    to return. *)

(** [subprocess.CompletedProcess] of the build. *)
Record completed := {
  cp_stdout : string;
  cp_stderr : string;
  cp_returncode : Z;
}.

(** What a finished benchmark process leaves: the lines of its two
    streams, each in the order written, and its exit code. *)
Record finished := {
  out_lines : list string;
  err_lines : list string;
  returncode : Z;
}.

Class Host (S : Type) := {
  (** [str(Path.home())] *)
  home : string;
  (** [str(Path(p).expanduser())] for the text [p] of a path *)
  expanduser : string -> string;
  path_exists : S -> string -> bool;
  path_is_file : S -> string -> bool;
  (** [str(p.resolve())] *)
  path_resolve : S -> string -> string;
  (** [shutil.copyfile(src, dst)]: the text of the [OSError] if it raises *)
  copyfile : string -> string -> S -> option string * S;
  (** [subprocess.run(["bash", script], cwd=cwd, capture_output=True)] *)
  subprocess_run : string -> string -> S -> completed * S;
  (** [p.mkdir(parents=True, exist_ok=True)] *)
  mkdir : string -> S -> S;
  (** [subprocess.Popen(["bash", script, arg], cwd=cwd, ...)], followed
      until the process exits and its streams are drained; on the left the
      text of the exception when the process cannot be created *)
  subprocess_Popen : string -> string -> string -> S -> (string + finished) * S;
  (** [json.load] of the file opened for reading as UTF-8 *)
  json_load : S -> string -> result json;
  (** [datetime.now().strftime("%Y%m%d_%H%M%S")] *)
  strftime_now : S -> string;
}.

(** The side-effecting calls, as the program makes them. *)
Inductive call :=
| CopyFile (src dst : string)
| RunBuild (script cwd : string)
| MkDir (path : string)
| StartBenchmark (script arg cwd : string).

(** The machine and the calls made on it so far. *)
Record world (S : Type) := World {
  sys : S;
  calls : list call;
}.
Arguments World {S} _ _.
Arguments sys {S} _.
Arguments calls {S} _.

(** [d.update(upd)]: the entries of [upd] replace those of [d]. *)
Definition dict_update {V} (d upd : gmap string V) : gmap string V := upd ∪ d.

Record EvaluationResult := {
  metrics : gmap string float;
  artifacts : gmap string string;
}.

Section Evaluator.

Context {S : Type} {host : Host S}.

Definition REPO_ROOT : string := Path.joinpath home "cache_ext".
Definition FILESEARCH_DIR : string :=
  Path.joinpath (Path.joinpath REPO_ROOT "eval") "filesearch".
Definition RESULTS_DIR : string := Path.joinpath REPO_ROOT "results".
Definition POLICY_DEST : string :=
  Path.joinpath (Path.joinpath REPO_ROOT "policies") "cache_ext_agent.bpf.c".
Definition BUILD_SCRIPT : string := Path.joinpath REPO_ROOT "build_policies.sh".

Definition did (c : call) (w : world S) (s' : S) : world S :=
  World s' (calls w ++ [c]).

(** [_run_filesearch_script] *)
Definition _run_filesearch_script (results_filename : string) (w : world S)
  : gmap string string * world S :=
  let artifacts : gmap string string := ∅ in
  let script := Path.joinpath FILESEARCH_DIR "run.sh" in
  if negb (path_exists (sys w) script) then
    let msg := "run.sh not found at " ++ script in
    (<["run_error" := msg]> artifacts, w)
  else
    let '(started, s') :=
      subprocess_Popen script results_filename FILESEARCH_DIR (sys w) in
    let w' := did (StartBenchmark script results_filename FILESEARCH_DIR) w s' in
    match started with
    | inl exc =>
        let msg := "Failed to execute run.sh: " ++ exc in
        (<["run_error" := msg]> artifacts, w')
    | inr process =>
        let artifacts := <["run_stdout" := Str.join "" (out_lines process)]> artifacts in
        let artifacts := <["run_stderr" := Str.join "" (err_lines process)]> artifacts in
        let artifacts := <["run_exit_code" := pretty (returncode process)]> artifacts in
        let artifacts := <["results_filename" := results_filename]> artifacts in
        (artifacts, w')
    end.

(** The body of the loop of [_load_cache_ext_runtimes] on one entry:
    the runtime it appends, if any. *)
Definition entry_runtime (entry : json) : result (option float) :=
  let* config := py_get entry "config" (JObj []) in
  let* name := py_get config "cgroup_name" JNull in
  if differs_from_str name "cache_ext_test" then ret None
  else
    match (let* results := py_get entry "results" (JObj []) in
           let* runtime := py_get results "runtime_sec" JNull in
           py_float runtime) with
    | inr f => ret (Some f)
    | inl TypeError | inl ValueError => ret None
    | inl e => raise e
    end.

(** The loop of [_load_cache_ext_runtimes]. *)
Fixpoint collect_runtimes (entries : list json) (runtimes : list float)
  : result (list float) :=
  match entries with
  | [] => ret runtimes
  | entry :: rest =>
      let* r := entry_runtime entry in
      match r with
      | Some f => collect_runtimes rest (runtimes ++ [f])
      | None => collect_runtimes rest runtimes
      end
  end.

(** [_load_cache_ext_runtimes] *)
Definition _load_cache_ext_runtimes (path : string) (s : S) : result (list float) :=
  if negb (path_exists s path) then ret []
  else
    match json_load s path with
    | inl OSError | inl JSONDecodeError => ret []
    | inl e => raise e
    | inr data =>
        collect_runtimes (match data with JList items => items | _ => [] end) []
    end.

(** The end of [_prepare_policy], from the test for the build script
    on: the policies are rebuilt. Both ways through the copy step lead
    here. *)
Definition build_policies (artifacts : gmap string string) (w : world S)
  : (bool * gmap string string) * world S :=
  if negb (path_exists (sys w) BUILD_SCRIPT) then
    let msg := "build_policies.sh not found at " ++ BUILD_SCRIPT in
    ((false, <["build_error" := msg]> artifacts), w)
  else
    let '(build_proc, s') := subprocess_run BUILD_SCRIPT REPO_ROOT (sys w) in
    let w := did (RunBuild BUILD_SCRIPT REPO_ROOT) w s' in
    let artifacts := <["build_stdout" := cp_stdout build_proc]> artifacts in
    let artifacts := <["build_stderr" := cp_stderr build_proc]> artifacts in
    let artifacts :=
      <["build_exit_code" := pretty (cp_returncode build_proc)]> artifacts in
    if negb (cp_returncode build_proc =? 0)%Z then
      let msg := "build_policies.sh failed with exit code "
                 ++ pretty (cp_returncode build_proc) in
      ((false, <["build_error" := msg]> artifacts), w)
    else ((true, artifacts), w).

(** [_prepare_policy] *)
Definition _prepare_policy (program_path : option string) (w : world S)
  : (bool * gmap string string) * world S :=
  let artifacts : gmap string string := ∅ in
  match program_path with
  | None => ((true, artifacts), w)
  | Some program_path =>
      let candidate := Str.strip program_path in
      if String.eqb candidate "" then ((true, artifacts), w)
      else
        let source_path := expanduser (Path.Path candidate) in
        if negb (path_exists (sys w) source_path)
           || negb (path_is_file (sys w) source_path) then
          let msg := "Provided program_path does not exist or is not a file: "
                     ++ source_path in
          ((false, <["program_error" := msg]> artifacts), w)
        else if negb (String.eqb (Path.suffix source_path) ".c") then
          let msg := "Expected a BPF C source (.c), got: " ++ source_path in
          ((false, <["program_error" := msg]> artifacts), w)
        else
          let source_real := path_resolve (sys w) source_path in
          let dest_real := path_resolve (sys w) POLICY_DEST in
          if negb (String.eqb source_real dest_real) then
            let '(err, s') := copyfile source_real dest_real (sys w) in
            let w := did (CopyFile source_real dest_real) w s' in
            match err with
            | Some exc =>
                let msg := "Failed to copy BPF program to " ++ POLICY_DEST
                           ++ ": " ++ exc in
                ((false, <["program_error" := msg]> artifacts), w)
            | None =>
                build_policies (<["copied_policy_from" := source_real]> artifacts) w
            end
          else build_policies artifacts w
  end.

Definition initial_metrics : gmap string float :=
  <["combined_score" := Float.pos_zero]>
    (<["cache_ext_run_count" := Float.pos_zero]>
       (<["cache_ext_avg_runtime_sec" := Float.pos_zero]> ∅)).

(** The metrics once the runtimes are loaded (the end of [evaluate]). *)
Definition score (runtimes : list float) (metrics : gmap string float)
  : gmap string float :=
  match runtimes with
  | _ :: _ =>
      let avg_runtime := Float.mean runtimes in
      let metrics := <["cache_ext_avg_runtime_sec" := avg_runtime]> metrics in
      let metrics :=
        <["cache_ext_run_count" := Float.of_nat (length runtimes)]> metrics in
      <["combined_score" := Float.neg avg_runtime]> metrics
  | [] => <["combined_score" := Float.neg_inf]> metrics
  end.

(** [evaluate] *)
Definition evaluate (program_path : option string) (w : world S)
  : result EvaluationResult * world S :=
  let metrics := initial_metrics in
  let artifacts : gmap string string := ∅ in
  let '((success, prep_artifacts), w) := _prepare_policy program_path w in
  let artifacts := dict_update artifacts prep_artifacts in
  if negb success then
    let metrics := <["combined_score" := Float.neg_inf]> metrics in
    (ret {| metrics := metrics; artifacts := artifacts |}, w)
  else
    let w := did (MkDir RESULTS_DIR) w (mkdir RESULTS_DIR (sys w)) in
    let timestamp := strftime_now (sys w) in
    let results_filename := "filesearch_results_" ++ timestamp ++ ".json" in
    let results_path := Path.joinpath RESULTS_DIR results_filename in
    let '(run_artifacts, w) := _run_filesearch_script results_filename w in
    let artifacts := dict_update artifacts run_artifacts in
    (let* runtimes := _load_cache_ext_runtimes results_path (sys w) in
     ret {| metrics := score runtimes metrics; artifacts := artifacts |},
     w).

End Evaluator.

(** ** An in-memory machine

    A small host on which the evaluator runs inside Rocq. Paths are their
    own resolution and there is no home expansion. A file holds plain text
    or a JSON document. What the two scripts do when run is part of the
    machine's configuration. *)

Module Mem.

Inductive node :=
| Dir
| Text (s : string)
| Doc (j : json).

Record machine := {
  files : gmap string node;
  clock : string;
}.

Definition with_files (f : gmap string node → gmap string node) (m : machine)
  : machine :=
  {| files := f (files m); clock := clock m |}.

Record scripts := {
  (** the build: its completed process and its effect *)
  build : machine → completed * machine;
  (** the benchmark, given the results file name *)
  bench : string → machine → finished * machine;
  (** the error of process creation, if it fails *)
  spawn_error : option string;
}.

Definition exists_ (m : machine) (p : string) : bool :=
  bool_decide (is_Some (files m !! p)).

Definition is_file (m : machine) (p : string) : bool :=
  match files m !! p with
  | Some (Text _) | Some (Doc _) => true
  | _ => false
  end.

Definition copy (src dst : string) (m : machine) : option string * machine :=
  match files m !! src, files m !! dst with
  | Some Dir, _ | None, _ => (Some ("cannot read " ++ src), m)
  | _, Some Dir => (Some ("is a directory: " ++ dst), m)
  | Some n, _ => (None, with_files <[dst := n]> m)
  end.

Definition make_dir (p : string) (m : machine) : machine :=
  match files m !! p with
  | None => with_files <[p := Dir]> m
  | Some _ => m
  end.

Definition load (m : machine) (p : string) : result json :=
  match files m !! p with
  | Some (Doc j) => ret j
  | Some (Text _) => raise JSONDecodeError
  | _ => raise OSError
  end.

Definition host (sc : scripts) : Host machine := {|
  home := "/home/user";
  expanduser := id;
  path_exists := exists_;
  path_is_file := is_file;
  path_resolve := λ _ p, p;
  copyfile := copy;
  subprocess_run := λ _ _ m, build sc m;
  mkdir := make_dir;
  subprocess_Popen := λ _ arg _ m,
    match spawn_error sc with
    | Some e => (inl e, m)
    | None => let '(p, m') := bench sc arg m in (inr p, m')
    end;
  json_load := load;
  strftime_now := clock;
|}.

Definition boot (m : machine) : world machine := World m [].

(** Scripts that do nothing and succeed. *)
Definition idle : scripts := {|
  build := λ m, ({| cp_stdout := ""; cp_stderr := ""; cp_returncode := 0 |}, m);
  bench := λ _ m, ({| out_lines := []; err_lines := []; returncode := 0 |}, m);
  spawn_error := None;
|}.

(** A benchmark that writes the document [j] to the results file. *)
Definition writes (j : json) : scripts := {|
  build := build idle;
  bench := λ name m,
    ({| out_lines := ["done" ++ String (ascii_of_nat 10) ""];
        err_lines := []; returncode := 0 |},
     with_files <["/home/user/cache_ext/results/" ++ name := Doc j]> m);
  spawn_error := None;
|}.

(** A build that fails with exit code [rc]. *)
Definition failing_build (rc : Z) : scripts := {|
  build := λ m, ({| cp_stdout := ""; cp_stderr := "error"; cp_returncode := rc |}, m);
  bench := bench idle;
  spawn_error := None;
|}.

Definition run_sh : string := "/home/user/cache_ext/eval/filesearch/run.sh".
Definition build_sh : string := "/home/user/cache_ext/build_policies.sh".
Definition policy_c : string := "/home/user/cache_ext/policies/cache_ext_agent.bpf.c".

(** A checkout with both scripts and the active policy. *)
Definition checkout : machine := {|
  files := <[run_sh := Text "#!/bin/bash"]>
             (<[build_sh := Text "#!/bin/bash"]>
                (<[policy_c := Text "// policy"]> ∅));
  clock := "20240101_120000";
|}.

Definition notes_txt : string := "/home/user/notes.txt".

(** The machine without the file at [p]. *)
Definition without (p : string) (m : machine) : machine :=
  with_files (delete p) m.

(** The machine with a text file at [p]. *)
Definition with_text (p text : string) (m : machine) : machine :=
  with_files <[p := Text text]> m.

(** The checkout without its build script. *)
Definition unbuildable : world machine := boot (without build_sh checkout).

(** Scripts whose benchmark cannot be started. *)
Definition unstartable (e : string) : scripts := {|
  build := build idle;
  bench := bench idle;
  spawn_error := Some e;
|}.

(** A benchmark that writes the document [j] and exits with code [rc]. *)
Definition writes_and_exits (j : json) (rc : Z) : scripts := {|
  build := build idle;
  bench := λ name m,
    ({| out_lines := []; err_lines := ["failed" ++ String (ascii_of_nat 10) ""];
        returncode := rc |},
     with_files <["/home/user/cache_ext/results/" ++ name := Doc j]> m);
  spawn_error := None;
|}.

(** The results file [evaluate] reads on a machine whose clock shows
    [clock checkout]. *)
Definition results_json : string :=
  "/home/user/cache_ext/results/filesearch_results_20240101_120000.json".

(** The machine with a JSON document at [p]. *)
Definition with_doc (p : string) (j : json) (m : machine) : machine :=
  with_files <[p := Doc j]> m.

(** A host on which no file decodes as UTF-8: reading one raises
    [UnicodeDecodeError]. *)
Definition undecodable (sc : scripts) : Host machine := {|
  home := "/home/user";
  expanduser := id;
  path_exists := exists_;
  path_is_file := is_file;
  path_resolve := λ _ p, p;
  copyfile := copy;
  subprocess_run := λ _ _ m, build sc m;
  mkdir := make_dir;
  subprocess_Popen := λ _ arg _ m,
    match spawn_error sc with
    | Some e => (inl e, m)
    | None => let '(p, m') := bench sc arg m in (inr p, m')
    end;
  json_load := λ _ _, raise UnicodeDecodeError;
  strftime_now := clock;
|}.

Definition candidate_c : string := "/home/user/candidate.bpf.c".

(** The checkout with a candidate policy beside it. *)
Definition with_candidate : machine :=
  with_text candidate_c "// candidate" checkout.

(** The checkout with a candidate and a policies directory in the place
    of the destination file, so that the copy fails. *)
Definition blocked_destination : machine :=
  with_files <[policy_c := Dir]> with_candidate.

End Mem.

(** ** Names for the stages of [evaluate]

    The states [evaluate] goes through after a successful staging, and
    the results file it reads, as functions of its arguments. *)

Section Stages.

Context {S : Type} {host : Host S}.

(** After [RESULTS_DIR.mkdir]. *)
Definition results_dir_ready (program_path : option string) (w : world S)
  : world S :=
  let w1 := (_prepare_policy program_path w).2 in
  did (MkDir RESULTS_DIR) w1 (mkdir RESULTS_DIR (sys w1)).

Definition results_filename_of (program_path : option string) (w : world S)
  : string :=
  "filesearch_results_" ++ strftime_now (sys (results_dir_ready program_path w))
    ++ ".json".

Definition results_path_of (program_path : option string) (w : world S)
  : string :=
  Path.joinpath RESULTS_DIR (results_filename_of program_path w).

(** The diagnostics of the benchmark stage. *)
Definition run_artifacts_of (program_path : option string) (w : world S)
  : gmap string string :=
  (_run_filesearch_script (results_filename_of program_path w)
     (results_dir_ready program_path w)).1.

(** After [_run_filesearch_script]: the state in which the results are
    read. *)
Definition benchmark_done (program_path : option string) (w : world S)
  : world S :=
  (_run_filesearch_script (results_filename_of program_path w)
     (results_dir_ready program_path w)).2.

(** The runtimes [evaluate] loads. *)
Definition loaded_runtimes (program_path : option string) (w : world S)
  : result (list float) :=
  _load_cache_ext_runtimes (results_path_of program_path w)
    (sys (benchmark_done program_path w)).

End Stages.

(** ** The shape of a run record *)

(** A [dict] whose ["config"], when present, is a [dict]. *)
Definition is_record (e : json) : bool :=
  match e with
  | JObj fields =>
      match lookup_field "config" fields with
      | None | Some (JObj _) => true
      | _ => false
      end
  | _ => false
  end.

(** A record of the run-identifier ["cache_ext_test"]. *)
Definition qualifies (e : json) : bool :=
  match e with
  | JObj fields =>
      match lookup_field "config" fields with
      | Some (JObj cfg) =>
          match lookup_field "cgroup_name" cfg with
          | Some (JStr n) => String.eqb n "cache_ext_test"
          | _ => false
          end
      | _ => false
      end
  | _ => false
  end.

(** [{config: {cgroup_name: name}, results: {runtime_sec: runtime}}] *)
Definition run_record (name : string) (runtime : json) : json :=
  JObj [("config", JObj [("cgroup_name", JStr name)]);
        ("results", JObj [("runtime_sec", runtime)])].

(** The no-signal metrics. *)
Definition no_signal : gmap string float :=
  <["combined_score" := Float.neg_inf]> initial_metrics.

(** ** The metrics of a run *)

(** The three metrics as a map. *)
Definition metrics_of (avg count combined : float) : gmap string float :=
  <["combined_score" := combined]>
    (<["cache_ext_run_count" := count]>
       (<["cache_ext_avg_runtime_sec" := avg]> ∅)).

(** The records of the specification's aggregation example. *)
Definition aggregation_example : list json :=
  [run_record "cache_ext_test" (JFloat (Float.round_Z 2));
   run_record "other" (JFloat (Float.round_Z 99));
   run_record "cache_ext_test" (JFloat (Float.round_Z 4))].

(** An entry the loop of [_load_cache_ext_runtimes] gets past: a record
    that does not qualify, or one that qualifies and whose ["results"],
    when present, is a [dict] whose ["runtime_sec"] is not an [int]
    beyond the range of floats. *)
Definition tolerated (e : json) : bool :=
  is_record e
  && (negb (qualifies e)
      || match e with
         | JObj fields =>
             match lookup_field "results" fields with
             | None => true
             | Some (JObj rs) =>
                 match lookup_field "runtime_sec" rs with
                 | Some (JInt z) => Float.is_finite (Float.round_Z z)
                 | _ => true
                 end
             | Some _ => false
             end
         | _ => false
         end).

(** The metrics of a result of [evaluate]. *)
Definition metrics_result (r : result EvaluationResult)
  : result (gmap string float) :=
  let* res := r in ret (metrics res).

(** ** Causes and keys *)

Definition is_benchmark_call (c : call) : bool :=
  match c with
  | StartBenchmark _ _ _ => true
  | _ => false
  end.

Definition is_build_call (c : call) : bool :=
  match c with
  | RunBuild _ _ => true
  | _ => false
  end.

Definition is_copy_call (c : call) : bool :=
  match c with
  | CopyFile _ _ => true
  | _ => false
  end.

(** The keys [_prepare_policy] writes. *)
Definition staging_keys : gset string :=
  {[ "program_error"; "copied_policy_from"; "build_stdout"; "build_stderr";
     "build_exit_code"; "build_error" ]}.

(** The keys [_run_filesearch_script] writes. *)
Definition run_keys : gset string :=
  {[ "run_error"; "run_stdout"; "run_stderr"; "run_exit_code";
     "results_filename" ]}.

(** The diagnostic keys the specification lists. *)
Definition listed_keys : gset string :=
  {[ "run_error"; "run_stdout"; "run_stderr"; "run_exit_code";
     "results_filename"; "program_error"; "copied_policy_from";
     "build_stdout"; "build_stderr"; "build_exit_code" ]}.

(** The diagnostics of a build that ran. *)
Definition build_artifacts (arts : gmap string string) (proc : completed)
  : gmap string string :=
  <["build_exit_code" := pretty (cp_returncode proc)]>
    (<["build_stderr" := cp_stderr proc]>
       (<["build_stdout" := cp_stdout proc]> arts)).

Section Causes.

Context {S : Type} {host : Host S}.

(** The path [_prepare_policy] examines for the argument [p]. *)
Definition source_path_of (p : string) : string :=
  expanduser (Path.Path (Str.strip p)).

(** A candidate that passes the checks on its path: not blank, present,
    a regular file, with the suffix [.c]. *)
Definition acceptable (p : string) (w : world S) : bool :=
  negb (String.eqb (Str.strip p) "")
  && path_exists (sys w) (source_path_of p)
  && path_is_file (sys w) (source_path_of p)
  && String.eqb (Path.suffix (source_path_of p)) ".c".

Definition same_file (p : string) (w : world S) : bool :=
  String.eqb (path_resolve (sys w) (source_path_of p))
             (path_resolve (sys w) POLICY_DEST).

(** The copy step for an acceptable candidate: the error of the copy if
    it fails, and the world after the step. *)
Definition copy_step (p : string) (w : world S) : option string * world S :=
  let source_real := path_resolve (sys w) (source_path_of p) in
  let dest_real := path_resolve (sys w) POLICY_DEST in
  if same_file p w then (None, w)
  else
    let '(err, s') := copyfile source_real dest_real (sys w) in
    (err, did (CopyFile source_real dest_real) w s').

(** The diagnostics with which the build is entered. *)
Definition copy_artifacts (p : string) (w : world S) : gmap string string :=
  if same_file p w then ∅
  else {[ "copied_policy_from" := path_resolve (sys w) (source_path_of p) ]}.

(** The ways staging fails, after the specification's error taxonomy. *)
Inductive staging_failure (p : string) (w : world S) : Prop :=
| NotFound :
    Str.strip p ≠ "" →
    path_exists (sys w) (source_path_of p) = false →
    staging_failure p w
| NotRegular :
    Str.strip p ≠ "" →
    path_is_file (sys w) (source_path_of p) = false →
    staging_failure p w
| WrongType :
    Str.strip p ≠ "" →
    path_exists (sys w) (source_path_of p) = true →
    path_is_file (sys w) (source_path_of p) = true →
    Path.suffix (source_path_of p) ≠ ".c" →
    staging_failure p w
| CopyFailed (exc : string) :
    acceptable p w = true →
    (copy_step p w).1 = Some exc →
    staging_failure p w
| BuildScriptMissing :
    acceptable p w = true →
    (copy_step p w).1 = None →
    path_exists (sys (copy_step p w).2) BUILD_SCRIPT = false →
    staging_failure p w
| BuildFailed :
    acceptable p w = true →
    (copy_step p w).1 = None →
    path_exists (sys (copy_step p w).2) BUILD_SCRIPT = true →
    cp_returncode
      (subprocess_run BUILD_SCRIPT REPO_ROOT (sys (copy_step p w).2)).1 ≠ 0 →
    staging_failure p w.

(** The ways no runtime is left when the results at [path] are read in
    the state [s]. *)
Inductive no_runtime_survives (s : S) (path : string) : Prop :=
| FileMissing :
    path_exists s path = false →
    no_runtime_survives s path
| FileInvalid (e : pyexc) :
    json_load s path = raise e →
    e = OSError ∨ e = JSONDecodeError →
    no_runtime_survives s path
| NotAList (data : json) :
    json_load s path = ret data →
    (∀ items, data ≠ JList items) →
    no_runtime_survives s path
| EmptyList :
    json_load s path = ret (JList []) →
    no_runtime_survives s path
| NoRecordQualifies (items : list json) :
    json_load s path = ret (JList items) →
    Forall (λ e, is_record e = true ∧ qualifies e = false) items →
    no_runtime_survives s path.

End Causes.

(** ** Further names *)

(** The diagnostics of a benchmark that ran. *)
Definition run_diagnostics (results_filename : string) (process : finished)
  : gmap string string :=
  <["results_filename" := results_filename]>
    (<["run_exit_code" := pretty (returncode process)]>
       (<["run_stderr" := Str.join "" (err_lines process)]>
          (<["run_stdout" := Str.join "" (out_lines process)]> ∅))).

(** The runtime the loop appends for an entry, if it appends one. *)
Definition runtime_of (e : json) : option float :=
  match entry_runtime e with
  | inr (Some f) => Some f
  | _ => None
  end.

(** The names of the three metrics. *)
Definition metric_names : gset string :=
  {[ "cache_ext_avg_runtime_sec"; "cache_ext_run_count"; "combined_score" ]}.

Section Entry.

Context {S : Type} {host : Host S}.

(** The path of the benchmark script. *)
Definition run_script : string := Path.joinpath FILESEARCH_DIR "run.sh".

(** The module run as a program: [print(evaluate())]. *)
Definition main (w : world S) : result EvaluationResult * world S :=
  evaluate None w.

End Entry.

(** * Properties *)

(** ** [statistics.mean]: an exact sum, rounded once *)

Lemma shift_Q (m e e' : Z) :
  (e' <= e)%Z →
  (inject_Z (m * 2 ^ (e - e')) * Qpower 2 e' == inject_Z m * Qpower 2 e)%Q.
Proof.
  intros Hle.
  rewrite inject_Z_mult.
  replace e with ((e - e') + e')%Z at 2 by lia.
  rewrite Qpower_plus by discriminate.
  rewrite <- (Z2Nat.id (e - e')) at 1 by lia.
  rewrite <- (Z2Nat.id (e - e')) at 2 by lia.
  generalize (Z.to_nat (e - e')) as n. intros n.
  assert (inject_Z (2 ^ Z.of_nat n) == Qpower 2 (Z.of_nat n))%Q as ->.
  { induction n as [|n IH].
    - reflexivity.
    - rewrite Nat2Z.inj_succ, Z.pow_succ_r by lia.
      rewrite inject_Z_mult, IH.
      unfold Z.succ. rewrite Qpower_plus by discriminate.
      rewrite Qmult_comm. reflexivity. }
  ring.
Qed.

Lemma dyadic_add_Q (a b : Z * Z) :
  (Float.dyadic_Q (Float.dyadic_add a b)
   == Float.dyadic_Q a + Float.dyadic_Q b)%Q.
Proof.
  destruct a as [m1 e1], b as [m2 e2].
  unfold Float.dyadic_add, Float.dyadic_Q. simpl.
  rewrite inject_Z_plus, Qmult_plus_distr_l.
  rewrite !shift_Q by lia. reflexivity.
Qed.

Lemma _sum_exact (data : list float) (fin : Z * Z) (special : option float) :
  Forall (λ x, Float.is_finite x = true) data →
  (Float._sum data fin special).2 = special
  ∧ (Float.dyadic_Q (Float._sum data fin special).1
     == Float.dyadic_Q fin + Float.total data)%Q.
Proof.
  intros Hfin. revert fin.
  induction Hfin as [|x rest Hx _ IH]; intros fin.
  - simpl. split; [reflexivity|ring].
  - cbn [Float._sum Float.total]. unfold Float.value.
    destruct (Float.exact_ratio x) as [d|] eqn:Hd.
    + destruct (IH (Float.dyadic_add fin d)) as [H1 H2].
      split; [exact H1|]. rewrite H2, dyadic_add_Q. ring.
    + destruct x; discriminate.
Qed.

(** The mean of finite floats is one rounded division of their exact
    sum by their number. *)
Lemma mean_of_finite (data : list float) :
  Forall (λ x, Float.is_finite x = true) data →
  ∃ m e,
    Float.mean data = Float.dyadic_div m e (Pos.of_nat (length data))
    ∧ (Float.dyadic_Q (m, e) == Float.total data)%Q.
Proof.
  intros Hfin.
  destruct (_sum_exact data (0, 0) None Hfin) as [Hsp Hsum].
  unfold Float.mean.
  destruct (Float._sum data (0, 0) None) as [[m e] sp]. simpl in *. subst sp.
  exists m, e. split; [done|].
  rewrite Hsum. unfold Float.dyadic_Q. simpl. ring.
Qed.

(** The model on values computed with CPython. *)

Example mean_of_tenths :
  Float.mean [Float.round_ratio 1 10; Float.round_ratio 2 10]
  = S754_finite false 5404319552844596 (-55).
Proof. reflexivity. Qed.

Example mean_of_infinities :
  Float.mean [Float.pos_inf; Float.round_Z 1] = Float.pos_inf
  ∧ Float.mean [Float.pos_inf; Float.neg_inf] = Float.nan.
Proof. split; reflexivity. Qed.

Example float_of_text :
  FloatOfStr.parse " 1_000.5e-1 " = Some (Float.round_ratio 10005 100)
  ∧ FloatOfStr.parse "-Infinity" = Some Float.neg_inf
  ∧ FloatOfStr.parse "1e400" = Some Float.pos_inf
  ∧ FloatOfStr.parse "-0" = Some (S754_zero true)
  ∧ FloatOfStr.parse "0.1" = Some (S754_finite false 7205759403792794 (-56))
  ∧ FloatOfStr.parse "1__0" = None
  ∧ FloatOfStr.parse "0x10" = None
  ∧ FloatOfStr.parse "1e" = None
  ∧ FloatOfStr.parse "." = None
  ∧ FloatOfStr.parse "" = None
  ∧ FloatOfStr.parse "fast" = None.
Proof. repeat split; reflexivity. Qed.

(** The separator 31 is white space for [str.strip], not for [float]. *)
Example separator_is_not_float_space :
  Str.strip (String (ascii_of_nat 31) "2.5") = "2.5"
  ∧ FloatOfStr.parse (String (ascii_of_nat 31) "2.5") = None
  ∧ FloatOfStr.parse (String (ascii_of_nat 160) "2.5")
    = Some (Float.round_dyadic 5 (-1)).
Proof. repeat split; reflexivity. Qed.

Example float_of_int_range :
  Float.of_int (2 ^ 1024 - 2 ^ 970 - 1)
  = ret (S754_finite false 9007199254740991 971)
  ∧ Float.of_int (2 ^ 1024 - 2 ^ 970) = raise OverflowError.
Proof. split; reflexivity. Qed.

Example suffixes :
  Path.suffix "/x/policy.bpf.c" = ".c"
  ∧ Path.suffix "policy.c/" = ".c"
  ∧ Path.suffix "/x/.c" = ""
  ∧ Path.suffix "/x/policy.c.bak" = ".bak"
  ∧ Path.suffix "/x.c/policy" = "".
Proof. repeat split; reflexivity. Qed.

Example paths :
  Path.Path "/a//b/./c/" = "/a/b/c"
  ∧ Path.Path "//a" = "//a"
  ∧ Path.Path "///a" = "/a"
  ∧ Path.Path "" = "."
  ∧ Path.joinpath "/" "cache_ext" = "/cache_ext".
Proof. repeat split; reflexivity. Qed.

(** ** How [evaluate] unfolds *)

Section Unfolding.

Context {S : Type} {host : Host S}.

Lemma evaluate_failed (program_path : option string) (w : world S) :
  (_prepare_policy program_path w).1.1 = false →
  evaluate program_path w
  = (ret {| metrics := no_signal;
            artifacts := dict_update ∅ (_prepare_policy program_path w).1.2 |},
     (_prepare_policy program_path w).2).
Proof.
  unfold evaluate.
  destruct (_prepare_policy program_path w) as [[ok prep] w1]; simpl.
  by intros ->.
Qed.

Lemma evaluate_staged (program_path : option string) (w : world S) :
  (_prepare_policy program_path w).1.1 = true →
  evaluate program_path w
  = (let* runtimes := loaded_runtimes program_path w in
     ret {| metrics := score runtimes initial_metrics;
            artifacts :=
              dict_update (dict_update ∅ (_prepare_policy program_path w).1.2)
                          (run_artifacts_of program_path w) |},
     benchmark_done program_path w).
Proof.
  unfold evaluate, loaded_runtimes, run_artifacts_of, benchmark_done,
    results_path_of, results_filename_of, results_dir_ready.
  destruct (_prepare_policy program_path w) as [[ok prep] w1]; simpl.
  intros ->; simpl.
  by destruct (_run_filesearch_script _ _) as [ra w2].
Qed.

End Unfolding.

(** ** Aggregation *)

Section Aggregation.

Context {S : Type} {host : Host S}.

Lemma entry_runtime_other (e : json) :
  is_record e = true → qualifies e = false → entry_runtime e = ret None.
Proof.
  destruct e as [| | | | |items|fields]; try discriminate.
  unfold is_record, qualifies, entry_runtime; simpl.
  destruct (lookup_field "config" fields) as [[| | | | | |cfg]|];
    try discriminate; simpl; [|done].
  intros _.
  destruct (lookup_field "cgroup_name" cfg) as [[| | | |n| |]|]; simpl;
    try done.
  by intros ->.
Qed.

Lemma collect_runtimes_skip (e : json) (rest : list json) (acc : list float) :
  entry_runtime e = ret None →
  collect_runtimes (e :: rest) acc = collect_runtimes rest acc.
Proof. by simpl; intros ->. Qed.


(** When no entry yields a runtime, none is collected. *)
Lemma collect_runtimes_none (entries : list json) (acc : list float) :
  Forall (λ e, entry_runtime e = ret None) entries →
  collect_runtimes entries acc = ret acc.
Proof.
  induction 1 as [|e rest He _ IH]; [done|].
  by rewrite collect_runtimes_skip.
Qed.

Lemma load_missing (path : string) (s : S) :
  path_exists s path = false → _load_cache_ext_runtimes path s = ret [].
Proof. unfold _load_cache_ext_runtimes. by intros ->. Qed.

Lemma load_unreadable (path : string) (s : S) (e : pyexc) :
  json_load s path = raise e → e = OSError ∨ e = JSONDecodeError →
  _load_cache_ext_runtimes path s = ret [].
Proof.
  unfold _load_cache_ext_runtimes. intros -> He.
  destruct (path_exists s path); [|done].
  by destruct He as [-> | ->].
Qed.

Lemma load_list (path : string) (s : S) (items : list json) :
  path_exists s path = true → json_load s path = ret (JList items) →
  _load_cache_ext_runtimes path s = collect_runtimes items [].
Proof. unfold _load_cache_ext_runtimes. by intros -> ->. Qed.

Lemma load_not_list (path : string) (s : S) (data : json) :
  json_load s path = ret data → (∀ items, data ≠ JList items) →
  _load_cache_ext_runtimes path s = ret [].
Proof.
  unfold _load_cache_ext_runtimes. intros -> Hd.
  destruct (path_exists s path); [|done]. simpl.
  destruct data; try done. by destruct (Hd items).
Qed.

Lemma score_empty : score [] initial_metrics = no_signal.
Proof. done. Qed.

Lemma score_nonempty (runtimes : list float) (m : gmap string float) :
  runtimes ≠ [] →
  score runtimes m !! "cache_ext_avg_runtime_sec" = Some (Float.mean runtimes)
  ∧ score runtimes m !! "cache_ext_run_count"
    = Some (Float.of_nat (length runtimes))
  ∧ score runtimes m !! "combined_score"
    = Some (Float.neg (Float.mean runtimes)).
Proof.
  destruct runtimes as [|x xs]; [done|]. intros _.
  unfold score. by simplify_map_eq.
Qed.

End Aggregation.

Lemma no_signal_metrics :
  no_signal = metrics_of Float.pos_zero Float.pos_zero Float.neg_inf.
Proof.
  unfold no_signal, initial_metrics, metrics_of.
  by rewrite insert_insert_eq.
Qed.

Lemma score_metrics (runtimes : list float) :
  runtimes ≠ [] →
  score runtimes initial_metrics
  = metrics_of (Float.mean runtimes) (Float.of_nat (length runtimes))
               (Float.neg (Float.mean runtimes)).
Proof.
  destruct runtimes as [|x xs]; [done|]. intros _.
  unfold score, initial_metrics, metrics_of.
  apply map_eq; intros k.
  destruct (decide (k = "combined_score")) as [->|];
    [by simplify_map_eq|].
  destruct (decide (k = "cache_ext_run_count")) as [->|];
    [by simplify_map_eq|].
  destruct (decide (k = "cache_ext_avg_runtime_sec")) as [->|];
    by simplify_map_eq.
Qed.

Section Scoring.

Context {S : Type} {host : Host S}.


End Scoring.


(** A runtime that is not numeric text, or is missing, is dropped and the
    other records are kept. *)
Example unparsable_runtime_is_dropped :
  collect_runtimes
    [run_record "cache_ext_test" (JStr "fast");
     run_record "cache_ext_test" JNull;
     JObj [("config", JObj [("cgroup_name", JStr "cache_ext_test")])];
     JObj [];
     run_record "cache_ext_test" (JInt 2)] []
  = ret [Float.round_Z 2].
Proof. reflexivity. Qed.

(** ** No usable signal *)

Section NoSignal.

Context {S : Type} {host : Host S}.

Lemma no_runtime_survives_load (s : S) (path : string) :
  no_runtime_survives s path → _load_cache_ext_runtimes path s = ret [].
Proof.
  intros [Hmiss|e He Hcls|data Hd Hnl|Hd|items Hd Hall];
    eauto using load_missing, load_unreadable, load_not_list.
  - unfold _load_cache_ext_runtimes. rewrite Hd.
    by destruct (path_exists s path).
  - unfold _load_cache_ext_runtimes. rewrite Hd.
    destruct (path_exists s path); [|done]. simpl.
    apply collect_runtimes_none.
    eapply Forall_impl; [exact Hall|].
    intros e [Hr Hq]. by apply entry_runtime_other.
Qed.

(** X22. After a successful staging, when the results file is missing,
    cannot be read or decoded as JSON, does not hold a list, holds the
    empty list, or holds only dicts whose config is absent or a dict
    and whose cgroup_name is not "cache_ext_test", no runtime is loaded;
    and whenever no runtime is loaded the metrics [evaluate] returns
    are exactly average 0.0, run count 0 and combined score minus
    infinity. *)
Theorem X22_no_runtime_gives_no_signal
    (program_path : option string) (w : world S) :
  (_prepare_policy program_path w).1.1 = true →
  (no_runtime_survives (sys (benchmark_done program_path w))
                       (results_path_of program_path w) →
   loaded_runtimes program_path w = ret [])
  ∧ (loaded_runtimes program_path w = ret [] →
     ∃ res, (evaluate program_path w).1 = ret res
            ∧ metrics res
              = metrics_of Float.pos_zero Float.pos_zero Float.neg_inf).
Proof.
  intros Hok. split.
  - apply no_runtime_survives_load.
  - intros Hr. rewrite (evaluate_staged _ _ Hok), Hr. simpl.
    eexists; split; [reflexivity|]. exact no_signal_metrics.
Qed.

End NoSignal.

(** On the in-memory machine a benchmark that writes nothing leaves no
    results file. *)
Lemma X22_missing_file_run :
  ∃ res,
    (evaluate (host := Mem.host Mem.idle) None (Mem.boot Mem.checkout)).1 = ret res
    ∧ metrics res = metrics_of Float.pos_zero Float.pos_zero Float.neg_inf.
Proof.
  destruct (X22_no_runtime_gives_no_signal
              (host := Mem.host Mem.idle) None (Mem.boot Mem.checkout) eq_refl)
    as [Hcause Hmetrics].
  apply Hmetrics, Hcause. by apply FileMissing.
Defined.

(** C2, where the code departs from it. In the results file
    [[{"config": null}]] no record qualifies, so no runtime is left;
    yet [evaluate] does not return the no-signal metrics: the loop asks
    the config, which is not a dict, for its cgroup_name, and the
    [AttributeError] leaves [evaluate]. *)
Theorem C2_unqualifying_entry_raises :
  qualifies (JObj [("config", JNull)]) = false
  ∧ runtime_of (JObj [("config", JNull)]) = None
  ∧ (evaluate
       (host := Mem.host (Mem.writes (JList [JObj [("config", JNull)]])))
       None (Mem.boot Mem.checkout)).1
    = raise AttributeError.
Proof. repeat split; reflexivity. Qed.

(** ** Staging *)

Section Staging.

Context {S : Type} {host : Host S}.

Lemma prepare_none (w : world S) : _prepare_policy None w = ((true, ∅), w).
Proof. done. Qed.

Lemma prepare_blank (p : string) (w : world S) :
  Str.strip p = "" → _prepare_policy (Some p) w = ((true, ∅), w).
Proof. unfold _prepare_policy. by intros ->. Qed.

Lemma prepare_absent (p : string) (w : world S) :
  Str.strip p ≠ "" →
  path_exists (sys w) (source_path_of p) = false
  ∨ path_is_file (sys w) (source_path_of p) = false →
  _prepare_policy (Some p) w
  = ((false,
      {[ "program_error" :=
           "Provided program_path does not exist or is not a file: "
           ++ source_path_of p ]}),
     w).
Proof.
  intros Hp Hno. unfold _prepare_policy.
  apply String.eqb_neq in Hp as ->.
  fold (source_path_of p).
  destruct Hno as [-> | ->]; simpl; [done|].
  by rewrite orb_true_r.
Qed.

Lemma prepare_wrong_type (p : string) (w : world S) :
  Str.strip p ≠ "" →
  path_exists (sys w) (source_path_of p) = true →
  path_is_file (sys w) (source_path_of p) = true →
  Path.suffix (source_path_of p) ≠ ".c" →
  _prepare_policy (Some p) w
  = ((false,
      {[ "program_error" :=
           "Expected a BPF C source (.c), got: " ++ source_path_of p ]}),
     w).
Proof.
  intros Hp Hex Hfile Hsuf. unfold _prepare_policy.
  apply String.eqb_neq in Hp as ->.
  fold (source_path_of p). rewrite Hex, Hfile. simpl.
  by apply String.eqb_neq in Hsuf as ->.
Qed.

Lemma acceptable_inv (p : string) (w : world S) :
  acceptable p w = true →
  Str.strip p ≠ ""
  ∧ path_exists (sys w) (source_path_of p) = true
  ∧ path_is_file (sys w) (source_path_of p) = true
  ∧ Path.suffix (source_path_of p) = ".c".
Proof.
  unfold acceptable. rewrite !andb_true_iff, negb_true_iff.
  intros [[[Hp ?] ?] Hs].
  by apply String.eqb_neq in Hp; apply String.eqb_eq in Hs.
Qed.

(** An acceptable candidate goes through the copy step and, unless the
    copy fails, on to the build. *)
Lemma prepare_acceptable (p : string) (w : world S) :
  acceptable p w = true →
  _prepare_policy (Some p) w
  = match (copy_step p w).1 with
    | Some exc =>
        ((false,
          {[ "program_error" :=
               "Failed to copy BPF program to " ++ POLICY_DEST ++ ": " ++ exc ]}),
         (copy_step p w).2)
    | None => build_policies (copy_artifacts p w) (copy_step p w).2
    end.
Proof.
  intros (Hp & Hex & Hfile & Hsuf)%acceptable_inv.
  unfold _prepare_policy, copy_step, copy_artifacts, same_file.
  apply String.eqb_neq in Hp as ->.
  fold (source_path_of p). rewrite Hex, Hfile, Hsuf. simpl.
  destruct (String.eqb _ _); simpl; [done|].
  by destruct (copyfile _ _ _) as [[exc|] s'].
Qed.

Lemma build_missing (arts : gmap string string) (w : world S) :
  path_exists (sys w) BUILD_SCRIPT = false →
  build_policies arts w
  = ((false,
      <["build_error" := "build_policies.sh not found at " ++ BUILD_SCRIPT]> arts),
     w).
Proof. unfold build_policies. by intros ->. Qed.

Lemma build_ran (arts : gmap string string) (w : world S) :
  path_exists (sys w) BUILD_SCRIPT = true →
  let run := subprocess_run BUILD_SCRIPT REPO_ROOT (sys w) in
  build_policies arts w
  = ((bool_decide (cp_returncode run.1 = 0),
      if bool_decide (cp_returncode run.1 = 0)
      then build_artifacts arts run.1
      else <["build_error" := "build_policies.sh failed with exit code "
                              ++ pretty (cp_returncode run.1)]>
             (build_artifacts arts run.1)),
     did (RunBuild BUILD_SCRIPT REPO_ROOT) w run.2).
Proof.
  intros Hex. unfold build_policies. rewrite Hex. simpl.
  destruct (subprocess_run _ _ _) as [proc s']. simpl.
  destruct (Z.eqb_spec (cp_returncode proc) 0) as [Hz|Hz]; simpl.
  - by rewrite bool_decide_eq_true_2.
  - by rewrite bool_decide_eq_false_2.
Qed.

(** Staging fails exactly in the listed ways. *)
Lemma staging_failure_iff (p : string) (w : world S) :
  staging_failure p w ↔ (_prepare_policy (Some p) w).1.1 = false.
Proof.
  split.
  - intros [Hp Hex|Hp Hfile|Hp Hex Hfile Hsuf|exc Hacc Hcp|Hacc Hcp Hb|Hacc Hcp Hb Hrc].
    + by rewrite prepare_absent by auto.
    + by rewrite prepare_absent by auto.
    + by rewrite prepare_wrong_type.
    + by rewrite prepare_acceptable, Hcp.
    + by rewrite prepare_acceptable, Hcp, build_missing.
    + rewrite prepare_acceptable, Hcp by done.
      rewrite build_ran by done. simpl.
      by rewrite bool_decide_eq_false_2.
  - intros Hfail.
    destruct (decide (Str.strip p = "")) as [Hp|Hp].
    { by rewrite prepare_blank in Hfail. }
    destruct (path_exists (sys w) (source_path_of p)) eqn:Hex;
      [|by apply NotFound].
    destruct (path_is_file (sys w) (source_path_of p)) eqn:Hfile;
      [|by apply NotRegular].
    destruct (decide (Path.suffix (source_path_of p) = ".c")) as [Hsuf|Hsuf];
      [|by apply WrongType].
    assert (Hacc : acceptable p w = true).
    { unfold acceptable. rewrite Hex, Hfile, Hsuf. simpl.
      by apply String.eqb_neq in Hp as ->. }
    rewrite prepare_acceptable in Hfail by done.
    destruct ((copy_step p w).1) as [exc|] eqn:Hcp;
      [by eapply CopyFailed|].
    destruct (path_exists (sys (copy_step p w).2) BUILD_SCRIPT) eqn:Hb;
      [|by apply BuildScriptMissing].
    rewrite build_ran in Hfail by done. simpl in Hfail.
    apply BuildFailed; try done.
    by apply bool_decide_eq_false in Hfail.
Qed.

End Staging.

(** ** Keys and calls of the stages *)

Section Footprint.

Context {S : Type} {host : Host S}.

Lemma build_policies_keys (arts : gmap string string) (w : world S) :
  dom arts ⊆ staging_keys → dom (build_policies arts w).1.2 ⊆ staging_keys.
Proof.
  intros Harts. unfold build_policies.
  destruct (path_exists (sys w) BUILD_SCRIPT); simpl.
  - destruct (subprocess_run _ _ _) as [proc s'].
    destruct (cp_returncode proc =? 0)%Z; simpl;
      rewrite !dom_insert_L; unfold staging_keys in *; set_solver.
  - rewrite dom_insert_L. unfold staging_keys in *. set_solver.
Qed.

Lemma prepare_keys (program_path : option string) (w : world S) :
  dom (_prepare_policy program_path w).1.2 ⊆ staging_keys.
Proof.
  destruct program_path as [p|]; [|by rewrite prepare_none].
  destruct (decide (Str.strip p = "")) as [Hp|Hp];
    [by rewrite prepare_blank|].
  destruct (acceptable p w) eqn:Hacc.
  - rewrite prepare_acceptable by done.
    destruct ((copy_step p w).1) as [exc|]; simpl.
    + rewrite dom_singleton_L. unfold staging_keys. set_solver.
    + apply build_policies_keys. unfold copy_artifacts.
      destruct (same_file p w); [set_solver|].
      rewrite dom_singleton_L. unfold staging_keys. set_solver.
  - destruct (path_exists (sys w) (source_path_of p)) eqn:Hex.
    2:{ rewrite prepare_absent by auto. simpl.
        rewrite dom_singleton_L. unfold staging_keys. set_solver. }
    destruct (path_is_file (sys w) (source_path_of p)) eqn:Hfile.
    2:{ rewrite prepare_absent by auto. simpl.
        rewrite dom_singleton_L. unfold staging_keys. set_solver. }
    rewrite prepare_wrong_type; try done.
    + simpl. rewrite dom_singleton_L. unfold staging_keys. set_solver.
    + intros Hsuf. unfold acceptable in Hacc.
      rewrite Hex, Hfile, Hsuf in Hacc. simpl in Hacc.
      apply String.eqb_neq in Hp. by rewrite Hp in Hacc.
Qed.

Lemma run_script_keys (results_filename : string) (w : world S) :
  dom (_run_filesearch_script results_filename w).1 ⊆ run_keys.
Proof.
  unfold _run_filesearch_script.
  destruct (path_exists _ _); simpl.
  - destruct (subprocess_Popen _ _ _ _) as [[exc|process] s']; simpl;
      rewrite !dom_insert_L; unfold run_keys; set_solver.
  - rewrite dom_insert_L. unfold run_keys. set_solver.
Qed.

Lemma keys_disjoint : staging_keys ## run_keys.
Proof.
  unfold staging_keys, run_keys.
  apply elem_of_disjoint. intros k.
  rewrite !elem_of_union, !elem_of_singleton. naive_solver.
Qed.

Lemma build_policies_calls (arts : gmap string string) (w : world S) :
  List.filter is_benchmark_call (calls (build_policies arts w).2)
  = List.filter is_benchmark_call (calls w).
Proof.
  unfold build_policies.
  destruct (path_exists (sys w) BUILD_SCRIPT); simpl; [|done].
  destruct (subprocess_run _ _ _) as [proc s'].
  destruct (cp_returncode proc =? 0)%Z; simpl;
    by rewrite List.filter_app, app_nil_r.
Qed.

Lemma copy_step_calls (p : string) (w : world S) :
  List.filter is_benchmark_call (calls (copy_step p w).2)
  = List.filter is_benchmark_call (calls w).
Proof.
  unfold copy_step. destruct (same_file p w); [done|].
  destruct (copyfile _ _ _) as [err s']. simpl.
  by rewrite List.filter_app, app_nil_r.
Qed.

(** Staging never starts the benchmark. *)
Lemma prepare_calls (program_path : option string) (w : world S) :
  List.filter is_benchmark_call (calls (_prepare_policy program_path w).2)
  = List.filter is_benchmark_call (calls w).
Proof.
  destruct program_path as [p|]; [|done].
  destruct (decide (Str.strip p = "")) as [Hp|Hp];
    [by rewrite prepare_blank|].
  destruct (acceptable p w) eqn:Hacc.
  - rewrite prepare_acceptable by done.
    destruct ((copy_step p w).1) as [exc|]; simpl.
    + apply copy_step_calls.
    + by rewrite build_policies_calls, copy_step_calls.
  - destruct (path_exists (sys w) (source_path_of p)) eqn:Hex;
      [|by rewrite prepare_absent by auto].
    destruct (path_is_file (sys w) (source_path_of p)) eqn:Hfile;
      [|by rewrite prepare_absent by auto].
    rewrite prepare_wrong_type; try done.
    intros Hsuf. unfold acceptable in Hacc.
    rewrite Hex, Hfile, Hsuf in Hacc. simpl in Hacc.
    apply String.eqb_neq in Hp. by rewrite Hp in Hacc.
Qed.

End Footprint.

(** ** Failures of staging *)

Section StagingFailure.

Context {S : Type} {host : Host S}.

(** A failed staging says why. *)
Lemma staging_failure_explained (p : string) (w : world S) :
  staging_failure p w →
  is_Some ((_prepare_policy (Some p) w).1.2 !! "program_error")
  ∨ is_Some ((_prepare_policy (Some p) w).1.2 !! "build_error").
Proof.
  intros [Hp Hex|Hp Hfile|Hp Hex Hfile Hsuf|exc Hacc Hcp|Hacc Hcp Hb|Hacc Hcp Hb Hrc].
  - left. rewrite prepare_absent by auto. simpl. by rewrite lookup_singleton_eq.
  - left. rewrite prepare_absent by auto. simpl. by rewrite lookup_singleton_eq.
  - left. rewrite prepare_wrong_type by auto. simpl.
    by rewrite lookup_singleton_eq.
  - left. rewrite prepare_acceptable, Hcp by done. simpl.
    by rewrite lookup_singleton_eq.
  - right. rewrite prepare_acceptable, Hcp, build_missing by done. simpl.
    by rewrite lookup_insert_eq.
  - right. rewrite prepare_acceptable, Hcp by done.
    rewrite build_ran by done. simpl.
    rewrite bool_decide_eq_false_2 by done.
    by rewrite lookup_insert_eq.
Qed.

Lemma not_in_keys (m : gmap string string) (keys : gset string) (k : string) :
  dom m ⊆ keys → k ∉ keys → m !! k = None.
Proof. intros Hdom Hk. apply not_elem_of_dom. set_solver. Qed.

(** C3. When staging fails (the path does not exist, is not a regular
    file, has another suffix than .c, cannot be copied, the build script
    is missing, or the build exits with a non-zero code), [evaluate]
    returns at once: the combined score is minus infinity, the
    diagnostics are those of staging and name the cause, they have no
    run_stdout and no run_stderr entry, and the benchmark was not
    started. *)
Theorem C3_staging_failure_short_circuits (p : string) (w : world S) :
  staging_failure p w →
  ∃ res,
    evaluate (Some p) w = (ret res, (_prepare_policy (Some p) w).2)
    ∧ metrics res !! "combined_score" = Some Float.neg_inf
    ∧ artifacts res = (_prepare_policy (Some p) w).1.2
    ∧ (is_Some (artifacts res !! "program_error")
       ∨ is_Some (artifacts res !! "build_error"))
    ∧ artifacts res !! "run_stdout" = None
    ∧ artifacts res !! "run_stderr" = None
    ∧ List.filter is_benchmark_call (calls (evaluate (Some p) w).2)
      = List.filter is_benchmark_call (calls w).
Proof.
  intros Hfail.
  pose proof (staging_failure_explained _ _ Hfail) as Hwhy.
  apply staging_failure_iff in Hfail.
  rewrite (evaluate_failed _ _ Hfail).
  eexists; split; [reflexivity|]. cbn [metrics artifacts fst snd].
  unfold dict_update. rewrite (right_id_L ∅ (∪)).
  repeat split; try done.
  - eapply not_in_keys; [apply prepare_keys|].
    unfold staging_keys. set_solver.
  - eapply not_in_keys; [apply prepare_keys|].
    unfold staging_keys. set_solver.
  - apply prepare_calls.
Qed.

(** C6. For an existing regular file whose suffix is not .c, staging
    fails with a program_error diagnostic and leaves the machine as it
    was: nothing is copied, the build is not run, and there is no
    build_stdout, build_stderr or build_exit_code entry. *)
Theorem C6_wrong_suffix_fails_without_build (p : string) (w : world S) :
  Str.strip p ≠ "" →
  path_exists (sys w) (source_path_of p) = true →
  path_is_file (sys w) (source_path_of p) = true →
  Path.suffix (source_path_of p) ≠ ".c" →
  let staged := _prepare_policy (Some p) w in
  staged.1.1 = false
  ∧ is_Some (staged.1.2 !! "program_error")
  ∧ staged.1.2 !! "build_stdout" = None
  ∧ staged.1.2 !! "build_stderr" = None
  ∧ staged.1.2 !! "build_exit_code" = None
  ∧ staged.2 = w.
Proof.
  intros Hp Hex Hfile Hsuf staged. unfold staged.
  rewrite prepare_wrong_type by done. cbn [fst snd].
  by rewrite lookup_singleton_eq, !lookup_singleton_ne.
Qed.

(** C9. For an absent candidate path and for one that is blank after
    trimming, staging succeeds with no diagnostics and leaves the
    machine and the record of calls as they were. *)
Theorem C9_absent_or_blank_candidate
    (program_path : option string) (w : world S) :
  program_path = None
  ∨ (∃ p, program_path = Some p ∧ Str.strip p = "") →
  _prepare_policy program_path w = ((true, ∅), w).
Proof.
  intros [-> | (p & -> & Hp)]; [done|]. by apply prepare_blank.
Qed.

End StagingFailure.

(** The in-memory machine with a failing build: the active policy is
    given as the candidate, the build exits with code 2. *)
Lemma C3_failed_build_run :
  staging_failure (host := Mem.host (Mem.failing_build 2))
                  Mem.policy_c (Mem.boot Mem.checkout)
  ∧ ∃ res,
      (evaluate (host := Mem.host (Mem.failing_build 2))
                (Some Mem.policy_c) (Mem.boot Mem.checkout)).1 = ret res
      ∧ metrics res !! "combined_score" = Some Float.neg_inf
      ∧ artifacts res !! "build_exit_code" = Some "2"
      ∧ artifacts res !! "run_stdout" = None
      ∧ artifacts res !! "run_stderr" = None.
Proof.
  assert (Hfail : staging_failure (host := Mem.host (Mem.failing_build 2))
                    Mem.policy_c (Mem.boot Mem.checkout)).
  { apply BuildFailed; [reflexivity..|discriminate]. }
  split; [exact Hfail|].
  destruct (C3_staging_failure_short_circuits
              (host := Mem.host (Mem.failing_build 2))
              Mem.policy_c (Mem.boot Mem.checkout) Hfail)
    as (res & Hev & Hscore & Harts & _ & Hout & Herr & _).
  exists res. rewrite Hev, Harts. repeat split; assumption.
Defined.

(** A text file that is not a C source, on the in-memory machine. *)
Lemma C6_text_file_run :
  let w := Mem.boot (Mem.with_text Mem.notes_txt "hello" Mem.checkout) in
  let staged := _prepare_policy (host := Mem.host Mem.idle) (Some Mem.notes_txt) w in
  staged.1.1 = false
  ∧ is_Some (staged.1.2 !! "program_error")
  ∧ staged.1.2 !! "build_stdout" = None
  ∧ staged.1.2 !! "build_stderr" = None
  ∧ staged.1.2 !! "build_exit_code" = None
  ∧ staged.2 = w.
Proof.
  apply (C6_wrong_suffix_fails_without_build (host := Mem.host Mem.idle)
           Mem.notes_txt (Mem.boot (Mem.with_text Mem.notes_txt "hello" Mem.checkout)));
    [discriminate|reflexivity|reflexivity|discriminate].
Defined.

(** A candidate of blanks only. *)
Lemma C9_blank_run :
  _prepare_policy (host := Mem.host Mem.idle) (Some "   ") (Mem.boot Mem.checkout)
  = ((true, ∅), Mem.boot Mem.checkout).
Proof.
  apply (C9_absent_or_blank_candidate (host := Mem.host Mem.idle)).
  right. exists "   ". split; reflexivity.
Defined.

(** ** The benchmark stage *)

Section Benchmark.

Context {S : Type} {host : Host S}.

Lemma run_script_missing (results_filename : string) (w : world S) :
  path_exists (sys w) (Path.joinpath FILESEARCH_DIR "run.sh") = false →
  _run_filesearch_script results_filename w
  = ({[ "run_error" :=
          "run.sh not found at " ++ Path.joinpath FILESEARCH_DIR "run.sh" ]},
     w).
Proof. unfold _run_filesearch_script. by intros ->. Qed.

(** C5. After a successful staging, if the benchmark script does not
    exist and there is no results file, [evaluate] starts no process
    (the machine is left as it was once the results directory was made),
    records run_error naming the script, and goes on to aggregation,
    which returns the no-signal metrics with the combined score minus
    infinity; no exception is raised. *)
Theorem C5_missing_benchmark_script
    (program_path : option string) (w : world S) :
  (_prepare_policy program_path w).1.1 = true →
  path_exists (sys (results_dir_ready program_path w))
              (Path.joinpath FILESEARCH_DIR "run.sh") = false →
  path_exists (sys (results_dir_ready program_path w))
              (results_path_of program_path w) = false →
  ∃ res,
    evaluate program_path w = (ret res, results_dir_ready program_path w)
    ∧ artifacts res !! "run_error"
      = Some ("run.sh not found at " ++ Path.joinpath FILESEARCH_DIR "run.sh")
    ∧ metrics res = metrics_of Float.pos_zero Float.pos_zero Float.neg_inf
    ∧ List.filter is_benchmark_call (calls (evaluate program_path w).2)
      = List.filter is_benchmark_call (calls w).
Proof.
  intros Hok Hscript Hresults.
  rewrite (evaluate_staged _ _ Hok).
  unfold loaded_runtimes, benchmark_done, run_artifacts_of.
  rewrite run_script_missing by done. cbn [fst snd].
  rewrite load_missing by done.
  eexists; split; [reflexivity|]. cbn [metrics artifacts bind ret].
  split; [|split].
  - unfold dict_update. apply lookup_union_Some_l, lookup_singleton_eq.
  - exact no_signal_metrics.
  - unfold results_dir_ready, did. cbn [calls].
    by rewrite List.filter_app, app_nil_r, prepare_calls.
Qed.

End Benchmark.

(** The checkout without its benchmark script. *)
Lemma C5_no_runner_run :
  let w := Mem.boot (Mem.without Mem.run_sh Mem.checkout) in
  ∃ res,
    (evaluate (host := Mem.host Mem.idle) None w).1 = ret res
    ∧ artifacts res !! "run_error"
      = Some "run.sh not found at /home/user/cache_ext/eval/filesearch/run.sh"
    ∧ metrics res !! "combined_score" = Some Float.neg_inf
    ∧ calls (evaluate (host := Mem.host Mem.idle) None w).2
      = [MkDir "/home/user/cache_ext/results"].
Proof.
  intros w.
  destruct (C5_missing_benchmark_script (host := Mem.host Mem.idle) None w)
    as (res & Hev & Herr & Hm & _); [reflexivity..|].
  exists res. rewrite Hev, Hm. repeat split. exact Herr.
Defined.

(** ** Copying the candidate *)

Section Copy.

Context {S : Type} {host : Host S}.

Lemma build_policies_other_key
    (arts : gmap string string) (w : world S) (k : string) :
  k ∉ ({[ "build_stdout"; "build_stderr"; "build_exit_code"; "build_error" ]}
        : gset string) →
  (build_policies arts w).1.2 !! k = arts !! k.
Proof.
  intros Hk. unfold build_policies.
  destruct (path_exists (sys w) BUILD_SCRIPT); simpl.
  - destruct (subprocess_run _ _ _) as [proc s'].
    destruct (cp_returncode proc =? 0)%Z; simpl;
      rewrite !lookup_insert_ne; set_solver.
  - rewrite lookup_insert_ne; set_solver.
Qed.

Lemma build_policies_copy_calls (arts : gmap string string) (w : world S) :
  List.filter is_copy_call (calls (build_policies arts w).2)
  = List.filter is_copy_call (calls w).
Proof.
  unfold build_policies.
  destruct (path_exists (sys w) BUILD_SCRIPT); simpl; [|done].
  destruct (subprocess_run _ _ _) as [proc s'].
  destruct (cp_returncode proc =? 0)%Z; simpl;
    by rewrite List.filter_app, app_nil_r.
Qed.

Lemma build_policies_runs (arts : gmap string string) (w : world S) :
  path_exists (sys w) BUILD_SCRIPT = true →
  calls (build_policies arts w).2
  = (calls w ++ [RunBuild BUILD_SCRIPT REPO_ROOT])%list.
Proof. intros Hex. by rewrite build_ran. Qed.

(** C7. When an acceptable candidate resolves to the destination,
    staging copies nothing and records no copied_policy_from entry, and
    it goes on to the build exactly as it does after a copy that
    succeeded: the same build step is entered, on the machine as it was
    in the first case and as the copy left it in the second; when the
    build script exists the build is run. *)
Theorem C7_same_file_skips_copy_not_build (p : string) (w : world S) :
  acceptable p w = true →
  same_file p w = true →
  _prepare_policy (Some p) w = build_policies ∅ w
  ∧ List.filter is_copy_call (calls (_prepare_policy (Some p) w).2)
    = List.filter is_copy_call (calls w)
  ∧ (_prepare_policy (Some p) w).1.2 !! "copied_policy_from" = None
  ∧ (path_exists (sys w) BUILD_SCRIPT = true →
     calls (_prepare_policy (Some p) w).2
     = (calls w ++ [RunBuild BUILD_SCRIPT REPO_ROOT])%list)
  ∧ (∀ (q : string) (v : world S),
       acceptable q v = true → same_file q v = false →
       (copy_step q v).1 = None →
       _prepare_policy (Some q) v
       = build_policies
           {[ "copied_policy_from" := path_resolve (sys v) (source_path_of q) ]}
           (copy_step q v).2).
Proof.
  intros Hacc Hsame.
  assert (Heq : _prepare_policy (Some p) w = build_policies ∅ w).
  { rewrite prepare_acceptable by done.
    unfold copy_step, copy_artifacts. by rewrite Hsame. }
  rewrite Heq. split; [done|]. split; [apply build_policies_copy_calls|].
  split; [|split].
  - rewrite build_policies_other_key; [done|set_solver].
  - apply build_policies_runs.
  - intros q v Hq Hdiff Hcp.
    rewrite prepare_acceptable, Hcp by done.
    unfold copy_artifacts. by rewrite Hdiff.
Qed.

End Copy.

(** The active policy given as the candidate on the in-memory machine:
    only the build is called. *)
Lemma C7_active_policy_run :
  let w := Mem.boot Mem.checkout in
  let staged := _prepare_policy (host := Mem.host Mem.idle) (Some Mem.policy_c) w in
  staged.1.1 = true
  ∧ staged.1.2 !! "copied_policy_from" = None
  ∧ calls staged.2 = [RunBuild Mem.build_sh "/home/user/cache_ext"].
Proof.
  intros w staged.
  destruct (C7_same_file_skips_copy_not_build (host := Mem.host Mem.idle)
              Mem.policy_c w)
    as (Heq & _ & Hkey & Hcalls & _); [reflexivity..|].
  unfold staged. split; [by rewrite Heq|]. split; [exact Hkey|].
  by rewrite Hcalls.
Defined.

(** ** The keys of the diagnostics *)

Section Keys.

Context {S : Type} {host : Host S}.

Lemma all_keys : staging_keys ∪ run_keys = listed_keys ∪ {["build_error"]}.
Proof. unfold staging_keys, run_keys, listed_keys. set_solver. Qed.

(** C8, as the code has it. Every key of the diagnostics [evaluate]
    returns is one of the ten listed keys or build_error, which
    staging writes when the build script is missing or the build fails;
    the keys staging writes and the keys the benchmark stage writes are
    disjoint, so the merge keeps every entry of staging. *)
Theorem C8_diagnostic_keys (program_path : option string) (w : world S) :
  dom (_prepare_policy program_path w).1.2 ⊆ staging_keys
  ∧ (∀ name v, dom (_run_filesearch_script name v).1 ⊆ run_keys)
  ∧ staging_keys ## run_keys
  ∧ staging_keys ∪ run_keys = listed_keys ∪ {["build_error"]}
  ∧ ∀ res,
      (evaluate program_path w).1 = ret res →
      dom (artifacts res) ⊆ listed_keys ∪ {["build_error"]}
      ∧ ∀ k v, (_prepare_policy program_path w).1.2 !! k = Some v →
               artifacts res !! k = Some v.
Proof.
  pose proof (prepare_keys program_path w) as Hprep.
  split; [done|]. split; [apply run_script_keys|].
  split; [apply keys_disjoint|]. split; [apply all_keys|].
  intros res. rewrite <- all_keys.
  destruct ((_prepare_policy program_path w).1.1) eqn:Hok.
  - rewrite (evaluate_staged _ _ Hok). cbn [fst].
    destruct (loaded_runtimes program_path w) as [e|runtimes]; [done|].
    intros [= <-]. cbn [artifacts]. unfold dict_update.
    rewrite (right_id_L ∅ (∪)).
    pose proof (run_script_keys (results_filename_of program_path w)
                  (results_dir_ready program_path w)) as Hrun.
    fold (run_artifacts_of program_path w) in Hrun.
    split.
    + rewrite dom_union_L. set_solver.
    + intros k v Hk. rewrite lookup_union_r; [done|].
      apply not_elem_of_dom. apply elem_of_dom_2 in Hk.
      pose proof keys_disjoint. set_solver.
  - rewrite (evaluate_failed _ _ Hok). cbn [fst].
    intros [= <-]. cbn [artifacts]. unfold dict_update.
    rewrite (right_id_L ∅ (∪)). split; [set_solver|done].
Qed.

End Keys.

(** The checkout without its build script, the active policy given as
    the candidate: build_error is among the keys, and all are among the
    listed ones and build_error. *)
Lemma C8_unbuildable_run :
  ∃ res,
    (evaluate (host := Mem.host Mem.idle) (Some Mem.policy_c) Mem.unbuildable).1
    = ret res
    ∧ "build_error" ∈ dom (artifacts res)
    ∧ dom (artifacts res) ⊆ listed_keys ∪ {["build_error"]}.
Proof.
  eexists. split; [reflexivity|]. split.
  - apply elem_of_dom. by eexists.
  - destruct (C8_diagnostic_keys (host := Mem.host Mem.idle)
                (Some Mem.policy_c) Mem.unbuildable) as (_ & _ & _ & _ & Hkeys).
    exact (proj1 (Hkeys _ eq_refl)).
Defined.

(** C8, as stated, fails: a missing build script gives a build_error
    entry, which is not among the listed keys. *)
Lemma C8_build_error_is_not_listed :
  ¬ (∀ res,
       (evaluate (host := Mem.host Mem.idle) (Some Mem.policy_c) Mem.unbuildable).1
       = ret res →
       dom (artifacts res) ⊆ listed_keys).
Proof.
  intros Hlisted.
  specialize (Hlisted _ eq_refl).
  assert (Hin : "build_error" ∈ listed_keys).
  { apply Hlisted, elem_of_dom. by eexists. }
  unfold listed_keys in Hin. set_solver.
Qed.

(** ** Coercion of runtimes *)

Section Coercion.

Context {S : Type} {host : Host S}.


Lemma qualifies_entry_runtime (fields : list (string * json)) :
  qualifies (JObj fields) = true →
  entry_runtime (JObj fields)
  = match (let* results := py_get (JObj fields) "results" (JObj []) in
           let* runtime := py_get results "runtime_sec" JNull in
           py_float runtime) with
    | inr f => ret (Some f)
    | inl TypeError | inl ValueError => ret None
    | inl e => raise e
    end.
Proof.
  unfold qualifies, entry_runtime. simpl.
  destruct (lookup_field "config" fields) as [[| | | | | |cfg]|];
    try discriminate; simpl.
  destruct (lookup_field "cgroup_name" cfg) as [[| | | |n| |]|];
    try discriminate; simpl.
  by intros ->.
Qed.

Lemma run_record_runtime (f : float) :
  entry_runtime (run_record "cache_ext_test" (JFloat f)) = ret (Some f).
Proof. done. Qed.


End Coercion.


(** ** Entries the loop does not get past *)

Section Anomalies.

Context {S : Type} {host : Host S}.

(** The loop body raises exactly on the entries that are not
    tolerated. *)
Lemma entry_runtime_returns_iff (e : json) :
  tolerated e = true ↔ ∃ r, entry_runtime e = ret r.
Proof.
  unfold tolerated.
  destruct (is_record e) eqn:Hrec; simpl.
  2:{ split; [done|]. intros [r Hr].
      destruct e as [| | | | |items|fields]; try discriminate.
      unfold is_record in Hrec. unfold entry_runtime in Hr. simpl in Hr.
      destruct (lookup_field "config" fields) as [[| | | | | |cfg]|];
        discriminate. }
  destruct (qualifies e) eqn:Hq; simpl.
  2:{ split; [|done]. intros _. exists None. by apply entry_runtime_other. }
  destruct e as [| | | | |items|fields]; try discriminate.
  rewrite qualifies_entry_runtime by done. simpl.
  destruct (lookup_field "results" fields) as [[| | | | | |rs]|]; simpl;
    try (split; [done|intros [? ?]; discriminate]).
  - destruct (lookup_field "runtime_sec" rs) as [[|b|z|f|s| |]|]; simpl;
      try (split; [by eexists|done]).
    + unfold Float.of_int.
      destruct (Float.is_finite (Float.round_Z z)); simpl.
      * split; [by eexists|done].
      * split; [done|intros [? ?]; discriminate].
    + destruct (FloatOfStr.parse s); simpl; (split; [by eexists|done]).
  - split; [by eexists|done].
Qed.

Lemma collect_runtimes_returns (entries : list json) (acc : list float) :
  Forall (λ e, tolerated e = true) entries →
  ∃ runtimes, collect_runtimes entries acc = ret runtimes.
Proof.
  intros Hall. revert acc.
  induction Hall as [|e rest He _ IH]; intros acc; simpl; [by eexists|].
  apply entry_runtime_returns_iff in He as [[f|] ->]; simpl; auto.
Qed.

End Anomalies.

(** C4, where the code departs from it. A results file whose list holds
    an entry that is not an object makes [evaluate] raise
    [AttributeError], and a qualifying record whose runtime is an
    integer beyond the range of floats makes it raise [OverflowError]:
    neither is caught, so the exception leaves [evaluate]. *)
Theorem C4_uncaught_exceptions :
  (evaluate (host := Mem.host (Mem.writes (JList [JInt 1])))
            None (Mem.boot Mem.checkout)).1
  = raise AttributeError
  ∧ (evaluate
       (host := Mem.host
                  (Mem.writes
                     (JList [run_record "cache_ext_test" (JInt (2 ^ 1024))])))
       None (Mem.boot Mem.checkout)).1
    = raise OverflowError.
Proof. split; reflexivity. Qed.

(** * Further properties of the code *)

(** ** The benchmark stage *)

Section RunStage.

Context {S : Type} {host : Host S}.

Lemma run_script_ran (name : string) (w : world S) (process : finished) :
  path_exists (sys w) run_script = true →
  (subprocess_Popen run_script name FILESEARCH_DIR (sys w)).1 = inr process →
  _run_filesearch_script name w
  = (run_diagnostics name process,
     did (StartBenchmark run_script name FILESEARCH_DIR) w
         (subprocess_Popen run_script name FILESEARCH_DIR (sys w)).2).
Proof.
  intros Hex Hp. unfold _run_filesearch_script. fold run_script. rewrite Hex.
  simpl. by destruct (subprocess_Popen _ _ _ _) as [[exc|p] s']; simplify_eq/=.
Qed.

Lemma run_script_unstartable (name : string) (w : world S) (exc : string) :
  path_exists (sys w) run_script = true →
  (subprocess_Popen run_script name FILESEARCH_DIR (sys w)).1 = inl exc →
  _run_filesearch_script name w
  = ({[ "run_error" := "Failed to execute run.sh: " ++ exc ]},
     did (StartBenchmark run_script name FILESEARCH_DIR) w
         (subprocess_Popen run_script name FILESEARCH_DIR (sys w)).2).
Proof.
  intros Hex Hp. unfold _run_filesearch_script. fold run_script. rewrite Hex.
  simpl. by destruct (subprocess_Popen _ _ _ _) as [[e|p] s']; simplify_eq/=.
Qed.

Lemma run_stage_world (name : string) (w : world S) :
  (_run_filesearch_script name w).2
  = (if path_exists (sys w) run_script
     then did (StartBenchmark run_script name FILESEARCH_DIR) w
              (subprocess_Popen run_script name FILESEARCH_DIR (sys w)).2
     else w).
Proof.
  unfold _run_filesearch_script. fold run_script.
  destruct (path_exists (sys w) run_script); [|done]. simpl.
  by destruct (subprocess_Popen _ _ _ _) as [[exc|p] s'].
Qed.

(** X1. The diagnostics of [_run_filesearch_script] have one of two
    shapes: run_error alone, or the four entries run_stdout, run_stderr,
    run_exit_code and results_filename. They have run_error exactly when
    the script is missing or the process cannot be created. A missing
    script leaves the machine and the calls as they were; otherwise one
    start of the benchmark is recorded, with the script, the results
    file name and the benchmark directory. *)
Theorem X1_run_stage_shape (name : string) (w : world S) :
  let ran := _run_filesearch_script name w in
  let started := subprocess_Popen run_script name FILESEARCH_DIR (sys w) in
  (dom ran.1 = {["run_error"]}
   ∨ dom ran.1
     = {[ "run_stdout"; "run_stderr"; "run_exit_code"; "results_filename" ]})
  ∧ (is_Some (ran.1 !! "run_error")
     ↔ path_exists (sys w) run_script = false ∨ ∃ exc, started.1 = inl exc)
  ∧ ran.2
    = (if path_exists (sys w) run_script
       then did (StartBenchmark run_script name FILESEARCH_DIR) w started.2
       else w).
Proof.
  intros ran started. unfold ran, started.
  destruct (path_exists (sys w) run_script) eqn:Hex.
  - destruct ((subprocess_Popen run_script name FILESEARCH_DIR (sys w)).1)
      as [exc|process] eqn:Hp.
    + rewrite (run_script_unstartable _ _ _ Hex Hp). cbn [fst snd].
      split; [left; by rewrite dom_singleton_L|].
      split; [|done]. rewrite lookup_singleton_eq. split; [eauto|done].
    + rewrite (run_script_ran _ _ _ Hex Hp). cbn [fst snd].
      split.
      { right. unfold run_diagnostics. rewrite !dom_insert_L. set_solver. }
      split; [|done]. unfold run_diagnostics.
      rewrite !lookup_insert_ne by done. rewrite lookup_empty.
      split; [by intros []|]. intros [|[exc [=]]]; done.
  - rewrite run_script_missing by done. cbn [fst snd].
    split; [left; by rewrite dom_singleton_L|].
    split; [|done]. rewrite lookup_singleton_eq. split; [eauto|done].
Qed.

End RunStage.

(** ** The benchmark stage inside [evaluate] *)

Section RunInEvaluate.

Context {S : Type} {host : Host S}.

(** X2. When the benchmark process cannot be created, [evaluate] does
    not raise: it records run_error with the text of the exception, has
    no run_stdout entry, and, when no results file is there, returns the
    no-signal metrics. *)
Theorem X2_spawn_failure_is_soft
    (program_path : option string) (w : world S) (exc : string) :
  let ready := results_dir_ready program_path w in
  let started :=
    subprocess_Popen run_script (results_filename_of program_path w)
                     FILESEARCH_DIR (sys ready) in
  (_prepare_policy program_path w).1.1 = true →
  path_exists (sys ready) run_script = true →
  started.1 = inl exc →
  path_exists started.2 (results_path_of program_path w) = false →
  ∃ res,
    (evaluate program_path w).1 = ret res
    ∧ artifacts res !! "run_error" = Some ("Failed to execute run.sh: " ++ exc)
    ∧ artifacts res !! "run_stdout" = None
    ∧ metrics res = metrics_of Float.pos_zero Float.pos_zero Float.neg_inf.
Proof.
  intros ready started Hok Hex Hp Hres. unfold ready, started in *.
  rewrite (evaluate_staged _ _ Hok).
  unfold loaded_runtimes, benchmark_done, run_artifacts_of.
  rewrite (run_script_unstartable _ _ _ Hex Hp). cbn [fst snd sys did].
  rewrite load_missing by done.
  eexists; split; [reflexivity|]. cbn [metrics artifacts].
  unfold dict_update. rewrite (right_id_L ∅ (∪)).
  split; [apply lookup_union_Some_l, lookup_singleton_eq|].
  split; [|exact no_signal_metrics].
  apply lookup_union_None. split; [by rewrite lookup_singleton_ne|].
  eapply not_in_keys; [apply prepare_keys|]. unfold staging_keys. set_solver.
Qed.

(** X3. The exit code of the benchmark is recorded and not judged: when
    the process ran, whatever its exit code, the metrics are those of
    the results file as the process left it, and the result carries
    run_exit_code, run_stdout, run_stderr and results_filename. *)
Theorem X3_exit_code_is_recorded_not_judged
    (program_path : option string) (w : world S) (process : finished) :
  let ready := results_dir_ready program_path w in
  let started :=
    subprocess_Popen run_script (results_filename_of program_path w)
                     FILESEARCH_DIR (sys ready) in
  (_prepare_policy program_path w).1.1 = true →
  path_exists (sys ready) run_script = true →
  started.1 = inr process →
  metrics_result (evaluate program_path w).1
  = (let* runtimes :=
       _load_cache_ext_runtimes (results_path_of program_path w) started.2 in
     ret (score runtimes initial_metrics))
  ∧ ∀ res,
      (evaluate program_path w).1 = ret res →
      artifacts res !! "run_exit_code" = Some (pretty (returncode process))
      ∧ artifacts res !! "run_stdout" = Some (Str.join "" (out_lines process))
      ∧ artifacts res !! "run_stderr" = Some (Str.join "" (err_lines process))
      ∧ artifacts res !! "results_filename"
        = Some (results_filename_of program_path w)
      ∧ artifacts res !! "run_error" = None.
Proof.
  intros ready started Hok Hex Hp. unfold ready, started in *.
  rewrite (evaluate_staged _ _ Hok).
  unfold loaded_runtimes, benchmark_done, run_artifacts_of.
  rewrite (run_script_ran _ _ _ Hex Hp). cbn [fst snd sys did].
  destruct (_load_cache_ext_runtimes _ _) as [e|runtimes]; cbn [bind ret].
  { split; [done|]. intros res [=]. }
  split; [done|]. intros res [= <-]. cbn [artifacts].
  unfold dict_update, run_diagnostics. rewrite (right_id_L ∅ (∪)).
  repeat split.
  - apply lookup_union_Some_l. by simplify_map_eq.
  - apply lookup_union_Some_l. by simplify_map_eq.
  - apply lookup_union_Some_l. by simplify_map_eq.
  - apply lookup_union_Some_l. by simplify_map_eq.
  - apply lookup_union_None. split; [by simplify_map_eq|].
    eapply not_in_keys; [apply prepare_keys|]. unfold staging_keys. set_solver.
Qed.

(** X4. The results file is read whether or not the benchmark ran: when
    the script is missing and a results file of that name is already
    there, its runtimes are scored, and the result has both run_error
    and the metrics of those runtimes. *)
Theorem X4_stale_results_are_scored
    (program_path : option string) (w : world S)
    (items : list json) (runtimes : list float) :
  let ready := results_dir_ready program_path w in
  (_prepare_policy program_path w).1.1 = true →
  path_exists (sys ready) run_script = false →
  path_exists (sys ready) (results_path_of program_path w) = true →
  json_load (sys ready) (results_path_of program_path w) = ret (JList items) →
  collect_runtimes items [] = ret runtimes →
  runtimes ≠ [] →
  ∃ res,
    (evaluate program_path w).1 = ret res
    ∧ is_Some (artifacts res !! "run_error")
    ∧ metrics res
      = metrics_of (Float.mean runtimes) (Float.of_nat (length runtimes))
                   (Float.neg (Float.mean runtimes)).
Proof.
  intros ready Hok Hscript Hex Hload Hcollect Hne. unfold ready in *.
  rewrite (evaluate_staged _ _ Hok).
  unfold loaded_runtimes, benchmark_done, run_artifacts_of.
  rewrite run_script_missing by done. cbn [fst snd].
  rewrite (load_list _ _ _ Hex Hload), Hcollect.
  eexists; split; [reflexivity|]. cbn [metrics artifacts].
  split; [|by apply score_metrics].
  unfold dict_update. eexists. apply lookup_union_Some_l, lookup_singleton_eq.
Qed.

End RunInEvaluate.

(** The benchmark cannot be started on the in-memory machine. *)
Lemma X2_unstartable_run :
  ∃ res,
    (evaluate (host := Mem.host (Mem.unstartable "bash: not found"))
              None (Mem.boot Mem.checkout)).1 = ret res
    ∧ artifacts res !! "run_error"
      = Some "Failed to execute run.sh: bash: not found"
    ∧ artifacts res !! "run_stdout" = None
    ∧ metrics res = metrics_of Float.pos_zero Float.pos_zero Float.neg_inf.
Proof.
  apply (X2_spawn_failure_is_soft
           (host := Mem.host (Mem.unstartable "bash: not found"))
           None (Mem.boot Mem.checkout) "bash: not found"); reflexivity.
Defined.

(** A benchmark that writes the records of the example and exits with
    code 3. *)
Lemma X3_failing_benchmark_run :
  ∃ res,
    (evaluate
       (host := Mem.host (Mem.writes_and_exits (JList aggregation_example) 3))
       None (Mem.boot Mem.checkout)).1 = ret res
    ∧ artifacts res !! "run_exit_code" = Some "3"
    ∧ metrics res
      = metrics_of (Float.round_Z 3) (Float.round_Z 2) (Float.round_Z (-3)).
Proof.
  eexists. split; [reflexivity|].
  destruct (X3_exit_code_is_recorded_not_judged
              (host := Mem.host
                         (Mem.writes_and_exits (JList aggregation_example) 3))
              None (Mem.boot Mem.checkout)
              {| out_lines := [];
                 err_lines := ["failed" ++ String (ascii_of_nat 10) ""];
                 returncode := 3 |})
    as [_ Harts]; [reflexivity..|].
  split; [exact (proj1 (Harts _ eq_refl))|].
  exact (score_metrics [Float.round_Z 2; Float.round_Z 4] ltac:(discriminate)).
Defined.

(** A checkout without the benchmark script that already holds a
    results file of the name the clock gives. *)
Lemma X4_stale_file_run :
  ∃ res,
    (evaluate (host := Mem.host Mem.idle) None
       (Mem.boot (Mem.with_doc Mem.results_json (JList aggregation_example)
                    (Mem.without Mem.run_sh Mem.checkout)))).1 = ret res
    ∧ is_Some (artifacts res !! "run_error")
    ∧ metrics res
      = metrics_of (Float.round_Z 3) (Float.round_Z 2) (Float.round_Z (-3)).
Proof.
  apply (X4_stale_results_are_scored (host := Mem.host Mem.idle) None
           (Mem.boot (Mem.with_doc Mem.results_json (JList aggregation_example)
                        (Mem.without Mem.run_sh Mem.checkout)))
           aggregation_example [Float.round_Z 2; Float.round_Z 4]);
    (reflexivity || discriminate).
Defined.

(** ** The loop over the records *)

Section Loop.

Context {S : Type} {host : Host S}.

Lemma entry_runtime_some_qualifies (e : json) (f : float) :
  entry_runtime e = ret (Some f) → qualifies e = true.
Proof.
  destruct e as [| | | | |items|fields]; try discriminate.
  unfold entry_runtime, qualifies. simpl.
  destruct (lookup_field "config" fields) as [[| | | | | |cfg]|];
    simpl; try discriminate.
  destruct (lookup_field "cgroup_name" cfg) as [[| | | |n| |]|];
    simpl; try discriminate.
  by destruct (String.eqb n "cache_ext_test").
Qed.

Lemma entry_runtime_raises (e : json) (exc : pyexc) :
  entry_runtime e = raise exc → exc = AttributeError ∨ exc = OverflowError.
Proof.
  destruct e as [| | | | |items|fields]; simpl;
    try (intros [= <-]; by left).
  unfold entry_runtime. simpl.
  destruct (lookup_field "config" fields) as [[| | | | | |cfg]|]; simpl;
    try discriminate; try (intros [= <-]; by left).
  destruct (lookup_field "cgroup_name" cfg) as [[| | | |n| |]|]; simpl;
    try discriminate.
  destruct (String.eqb n "cache_ext_test"); simpl; [|discriminate].
  destruct (lookup_field "results" fields) as [[| | | | | |rs]|]; simpl;
    try discriminate; try (intros [= <-]; by left).
  destruct (lookup_field "runtime_sec" rs) as [[|b|z|f|s| |]|]; simpl;
    try discriminate.
  - unfold Float.of_int. destruct (Float.is_finite _); simpl;
      [discriminate|]. intros [= <-]. by right.
  - destruct (FloatOfStr.parse s); discriminate.
Qed.

Lemma collect_runtimes_acc (entries : list json) (acc : list float) :
  Forall (λ e, tolerated e = true) entries →
  collect_runtimes entries acc = ret (acc ++ omap runtime_of entries)%list.
Proof.
  intros Hall. revert acc.
  induction Hall as [|e rest He _ IH]; intros acc.
  - by rewrite app_nil_r.
  - cbn [collect_runtimes omap list_omap]. unfold runtime_of at 1.
    apply entry_runtime_returns_iff in He as [[f|] ->]; simpl.
    + rewrite IH. by rewrite <- app_assoc.
    + apply IH.
Qed.

Lemma runtimes_among_qualifying (entries : list json) :
  (length (omap runtime_of entries)
   ≤ length (List.filter qualifies entries))%nat.
Proof.
  induction entries as [|e rest IH]; [done|].
  cbn [omap list_omap List.filter]. unfold runtime_of at 1.
  destruct (entry_runtime e) as [exc|[f|]] eqn:He.
  - destruct (qualifies e); simpl; lia.
  - rewrite (entry_runtime_some_qualifies _ _ He). simpl. lia.
  - destruct (qualifies e); simpl; lia.
Qed.

(** X5. On a list of entries the loop gets past, the loop of
    [_load_cache_ext_runtimes] is a filtering map: it returns what was
    collected before followed by the runtime of each entry that has one,
    in the order of the list, and at most one runtime for each
    qualifying record. *)
Theorem X5_loop_is_a_filtering_map (entries : list json) (acc : list float) :
  Forall (λ e, tolerated e = true) entries →
  collect_runtimes entries acc = ret (acc ++ omap runtime_of entries)%list
  ∧ (length (omap runtime_of entries)
     ≤ length (List.filter qualifies entries))%nat.
Proof.
  intros Hall. split; [by apply collect_runtimes_acc|].
  apply runtimes_among_qualifying.
Qed.

(** X6. The loop returns exactly when every entry is one it gets past.
    Otherwise it raises the exception of the first entry it does not
    get past, whatever was collected before and whatever follows, and
    that exception is [AttributeError] or [OverflowError]. *)
Theorem X6_loop_raises_at_first_bad_entry
    (entries : list json) (acc : list float) :
  ((∃ runtimes, collect_runtimes entries acc = ret runtimes)
   ↔ Forall (λ e, tolerated e = true) entries)
  ∧ (∀ exc, collect_runtimes entries acc = raise exc →
            exc = AttributeError ∨ exc = OverflowError)
  ∧ (∀ before e after exc,
       entries = (before ++ e :: after)%list →
       Forall (λ e, tolerated e = true) before →
       entry_runtime e = raise exc →
       collect_runtimes entries acc = raise exc).
Proof.
  split; [|split].
  - split; [|by apply collect_runtimes_returns].
    revert acc. induction entries as [|e rest IH]; intros acc [l Hl]; [done|].
    cbn [collect_runtimes] in Hl.
    destruct (entry_runtime e) as [exc|r] eqn:He; [done|].
    constructor.
    + apply entry_runtime_returns_iff. by exists r.
    + destruct r as [f|]; eapply IH; eauto.
  - revert acc. induction entries as [|e rest IH]; intros acc exc; [done|].
    cbn [collect_runtimes].
    destruct (entry_runtime e) as [exc'|[f|]] eqn:He; simpl; eauto.
    intros [= <-]. by eapply entry_runtime_raises.
  - intros before e after exc -> Hbefore He. revert acc.
    induction Hbefore as [|b before Hb _ IH]; intros acc.
    + simpl. by rewrite He.
    + cbn [app collect_runtimes].
      apply entry_runtime_returns_iff in Hb as [[f|] ->]; simpl; apply IH.
Qed.

(** X8. The loop appends a runtime [f] for an entry exactly when the
    entry is a dict whose config.cgroup_name is the string
    "cache_ext_test", whose results is a dict that has a runtime_sec,
    and [float] of that value returns [f]. *)
Theorem X8_entries_that_contribute (e : json) (f : float) :
  entry_runtime e = ret (Some f)
  ↔ ∃ fields rs v,
      e = JObj fields
      ∧ qualifies e = true
      ∧ lookup_field "results" fields = Some (JObj rs)
      ∧ lookup_field "runtime_sec" rs = Some v
      ∧ py_float v = ret f.
Proof.
  split.
  - intros He. pose proof (entry_runtime_some_qualifies _ _ He) as Hq.
    destruct e as [| | | | |items|fields]; try discriminate.
    rewrite qualifies_entry_runtime in He by done. simpl in He.
    destruct (lookup_field "results" fields) as [[| | | | | |rs]|] eqn:Hres;
      try discriminate.
    simpl in He.
    destruct (lookup_field "runtime_sec" rs) as [v|] eqn:Hv; [|discriminate].
    simpl in He. exists fields, rs, v. repeat split; try done.
    destruct (py_float v) as [[]|f']; try discriminate. by simplify_eq.
  - intros (fields & rs & v & -> & Hq & Hres & Hv & Hf).
    rewrite qualifies_entry_runtime by done. simpl.
    rewrite Hres. simpl. rewrite Hv. simpl. by rewrite Hf.
Qed.

(** X7. Of the exceptions that opening and decoding the results file
    can raise, only [OSError] and [JSONDecodeError] are turned into an
    empty result; any other, such as [UnicodeDecodeError] for a file
    that is not UTF-8, leaves [_load_cache_ext_runtimes] and, after a
    successful staging, [evaluate]. *)
Theorem X7_other_load_errors_propagate
    (program_path : option string) (w : world S) (exc : pyexc) :
  let s := sys (benchmark_done program_path w) in
  let path := results_path_of program_path w in
  (_prepare_policy program_path w).1.1 = true →
  path_exists s path = true →
  json_load s path = raise exc →
  exc ≠ OSError →
  exc ≠ JSONDecodeError →
  _load_cache_ext_runtimes path s = raise exc
  ∧ (evaluate program_path w).1 = raise exc.
Proof.
  intros s path Hok Hex Hload Hos Hjson. unfold s, path in *.
  assert (Hl : _load_cache_ext_runtimes (results_path_of program_path w)
                 (sys (benchmark_done program_path w)) = raise exc).
  { unfold _load_cache_ext_runtimes. rewrite Hex, Hload. simpl.
    by destruct exc. }
  split; [done|].
  rewrite (evaluate_staged _ _ Hok). unfold loaded_runtimes. by rewrite Hl.
Qed.

End Loop.

(** Two tolerated records around one that does not qualify. *)
Lemma X5_three_records_run :
  collect_runtimes aggregation_example []
  = ret [Float.round_Z 2; Float.round_Z 4]
  ∧ (length (omap runtime_of aggregation_example) ≤ 2)%nat.
Proof.
  apply (X5_loop_is_a_filtering_map aggregation_example []).
  repeat constructor.
Defined.

(** A results file that does not decode, on the in-memory machine. *)
Lemma X7_undecodable_run :
  (evaluate (host := Mem.undecodable (Mem.writes JNull))
            None (Mem.boot Mem.checkout)).1
  = raise UnicodeDecodeError.
Proof.
  refine (proj2 (X7_other_load_errors_propagate
                   (host := Mem.undecodable (Mem.writes JNull))
                   None (Mem.boot Mem.checkout) UnicodeDecodeError
                   _ _ _ _ _)); (reflexivity || discriminate).
Defined.

(** ** The mean of the runtimes *)

Lemma add_nan_r (t : float) : Float.add t S754_nan = S754_nan.
Proof. by destruct t. Qed.

Lemma sum_nan_sticky (data : list float) (fin : Z * Z) :
  (Float._sum data fin (Some S754_nan)).2 = Some S754_nan.
Proof.
  revert fin. induction data as [|x rest IH]; intros fin; [done|].
  cbn [Float._sum]. destruct (Float.exact_ratio x); apply IH.
Qed.

Lemma sum_with_nan (data : list float) (fin : Z * Z) (sp : option float) :
  In S754_nan data → (Float._sum data fin sp).2 = Some S754_nan.
Proof.
  revert fin sp. induction data as [|x rest IH]; intros fin sp; [done|].
  intros [->|Hin].
  - cbn [Float._sum Float.exact_ratio].
    destruct sp as [t|]; [rewrite add_nan_r|]; apply sum_nan_sticky.
  - cbn [Float._sum]. destruct (Float.exact_ratio x); by apply IH.
Qed.

Lemma mean_with_nan (data : list float) :
  In S754_nan data → Float.mean data = Float.nan.
Proof.
  intros Hin. unfold Float.mean.
  pose proof (sum_with_nan data (0, 0) None Hin) as Hsp.
  destruct (Float._sum data (0, 0) None) as [[m e] sp]. simpl in Hsp.
  by subst sp.
Qed.

(** X9. A NaN among the runtimes is not dropped and makes the average
    and the combined score NaN, whatever the other runtimes are; the run
    count is still the number of runtimes. *)
Theorem X9_nan_runtime_poisons_the_score (runtimes : list float) :
  In S754_nan runtimes →
  Float.mean runtimes = Float.nan
  ∧ score runtimes initial_metrics
    = metrics_of Float.nan (Float.of_nat (length runtimes)) Float.nan.
Proof.
  intros Hin. pose proof (mean_with_nan _ Hin) as Hmean.
  split; [done|].
  rewrite score_metrics by (by destruct runtimes).
  by rewrite Hmean.
Qed.

(** A record whose runtime is the text "nan" beside one of 2.0: the
    average and the score are NaN, the run count is 2. *)
Lemma X9_nan_text_run :
  ∃ res,
    (evaluate
       (host := Mem.host
                  (Mem.writes
                     (JList [run_record "cache_ext_test" (JInt 2);
                             run_record "cache_ext_test" (JStr "nan")])))
       None (Mem.boot Mem.checkout)).1 = ret res
    ∧ metrics res = metrics_of Float.nan (Float.round_Z 2) Float.nan.
Proof.
  eexists. split; [reflexivity|].
  refine (proj2 (X9_nan_runtime_poisons_the_score
                   [Float.round_Z 2; S754_nan] _)).
  right. by left.
Defined.

Lemma round_positive_sign (p : positive) :
  match Float.round_Z (Zpos p) with
  | S754_zero s | S754_infinity s | S754_finite s _ _ => s = false
  | S754_nan => True
  end.
Proof.
  unfold Float.round_Z, binary_normalize, binary_round.
  destruct (shl_align _ _ _) as [mz ez]. unfold binary_round_aux.
  destruct (shr_fexp _ _ _ _ _) as [mrs' e'].
  destruct (shr_fexp _ _ _ _ _) as [mrs'' e''].
  destruct (shr_m mrs''); try done.
  by destruct (Z.leb _ _).
Qed.

Lemma sum_of_positive_infinities
    (data : list float) (fin : Z * Z) (sp : option float) :
  Forall (λ x, Float.is_finite x = true ∨ x = Float.pos_inf) data →
  sp = None ∨ sp = Some Float.pos_inf →
  In Float.pos_inf data ∨ sp = Some Float.pos_inf →
  (Float._sum data fin sp).2 = Some Float.pos_inf.
Proof.
  intros Hall. revert fin sp.
  induction Hall as [|x rest Hx _ IH]; intros fin sp Hsp Hin.
  - by destruct Hin as [[]| ->].
  - cbn [Float._sum]. destruct Hx as [Hfin| ->].
    + destruct (Float.exact_ratio x) as [d|] eqn:Hd;
        [|by destruct x].
      apply IH; [done|]. destruct Hin as [[->|Hin]|Hin]; auto.
      discriminate.
    + cbn [Float.exact_ratio Float.pos_inf].
      apply IH; [right|right]; by destruct Hsp as [-> | ->].
Qed.

(** X10. An infinite runtime is not dropped either: when the runtimes
    hold plus infinity, and besides it only finite values, the average
    is plus infinity and the combined score is minus infinity, the
    value of the no-signal score, although the run count is not zero. *)
Theorem X10_infinite_runtime_scores_like_no_signal (runtimes : list float) :
  In Float.pos_inf runtimes →
  Forall (λ x, Float.is_finite x = true ∨ x = Float.pos_inf) runtimes →
  Float.is_finite (Float.of_nat (length runtimes)) = true →
  Float.mean runtimes = Float.pos_inf
  ∧ score runtimes initial_metrics
    = metrics_of Float.pos_inf (Float.of_nat (length runtimes)) Float.neg_inf
  ∧ score runtimes initial_metrics !! "combined_score"
    = no_signal !! "combined_score".
Proof.
  intros Hin Hall Hlen.
  assert (Hmean : Float.mean runtimes = Float.pos_inf).
  { unfold Float.mean.
    pose proof (sum_of_positive_infinities runtimes (0, 0) None Hall
                  (or_introl eq_refl) (or_introl Hin)) as Hsp.
    destruct (Float._sum runtimes (0, 0) None) as [[m e] sp]. simpl in Hsp.
    subst sp. unfold Float.of_nat in Hlen.
    destruct runtimes as [|x rest]; [done|].
    replace (Z.of_nat (length (x :: rest)))
      with (Zpos (Pos.of_nat (length (x :: rest)))) in Hlen
      by (cbn [length]; by rewrite <- Pos.of_nat_succ).
    pose proof (round_positive_sign (Pos.of_nat (length (x :: rest)))) as Hs.
    destruct (Float.round_Z (Zpos (Pos.of_nat (length (x :: rest)))))
      as [s|s| |s m' e']; try done; by subst s. }
  split; [done|].
  rewrite score_metrics by (by destruct runtimes). rewrite Hmean.
  split; [done|]. unfold metrics_of, no_signal. by rewrite !lookup_insert_eq.
Qed.

(** A record whose runtime is the text "inf" beside one of 2.0. *)
Lemma X10_infinite_text_run :
  ∃ res,
    (evaluate
       (host := Mem.host
                  (Mem.writes
                     (JList [run_record "cache_ext_test" (JInt 2);
                             run_record "cache_ext_test" (JStr "inf")])))
       None (Mem.boot Mem.checkout)).1 = ret res
    ∧ metrics res = metrics_of Float.pos_inf (Float.round_Z 2) Float.neg_inf.
Proof.
  eexists. split; [reflexivity|].
  refine (proj1 (proj2 (X10_infinite_runtime_scores_like_no_signal
                          [Float.round_Z 2; Float.pos_inf] _ _ _)));
    [right; by left|repeat constructor; by right|reflexivity].
Defined.

(** *** The order of the runtimes *)

Lemma pow2_shift (a b c : Z) :
  (c <= b)%Z → (b <= a)%Z → (2 ^ (a - b) * 2 ^ (b - c) = 2 ^ (a - c))%Z.
Proof.
  intros Hcb Hba. rewrite <- Z.pow_add_r by lia. f_equal. lia.
Qed.

Lemma dyadic_add_add (f a b : Z * Z) :
  Float.dyadic_add (Float.dyadic_add f a) b
  = let E := Z.min (Z.min f.2 a.2) b.2 in
    ((f.1 * 2 ^ (f.2 - E) + a.1 * 2 ^ (a.2 - E) + b.1 * 2 ^ (b.2 - E))%Z, E).
Proof.
  destruct f as [m e], a as [ma ea], b as [mb eb].
  unfold Float.dyadic_add. cbn [fst snd]. cbv zeta. f_equal.
  rewrite Z.mul_add_distr_r, <- !Z.mul_assoc.
  rewrite !pow2_shift by lia. done.
Qed.

Lemma dyadic_add_swap (f a b : Z * Z) :
  Float.dyadic_add (Float.dyadic_add f a) b
  = Float.dyadic_add (Float.dyadic_add f b) a.
Proof.
  rewrite !dyadic_add_add. cbv zeta.
  replace (Z.min (Z.min f.2 b.2) a.2) with (Z.min (Z.min f.2 a.2) b.2) by lia.
  f_equal. lia.
Qed.

Lemma special_add_swap (t x y : float) :
  Float.exact_ratio x = None → Float.exact_ratio y = None →
  Float.add (Float.add t x) y = Float.add (Float.add t y) x.
Proof.
  destruct x as [|sx| |]; try discriminate;
    destruct y as [|sy| |]; try discriminate; intros _ _;
    destruct t as [st|st| |st mt et]; try done;
    try (by destruct sx, sy); try (by destruct st, sx, sy);
    try (by destruct st, sx); try (by destruct st, sy);
    try (by destruct sx); by destruct sy.
Qed.

Lemma special_add_comm (x y : float) :
  Float.exact_ratio x = None → Float.exact_ratio y = None →
  Float.add x y = Float.add y x.
Proof.
  destruct x as [|sx| |]; try discriminate;
    destruct y as [|sy| |]; try discriminate; intros _ _; try done.
  by destruct sx, sy.
Qed.

Lemma sum_swap (x y : float) (rest : list float)
    (fin : Z * Z) (sp : option float) :
  Float._sum (x :: y :: rest) fin sp = Float._sum (y :: x :: rest) fin sp.
Proof.
  cbn [Float._sum].
  destruct (Float.exact_ratio x) as [dx|] eqn:Hx,
           (Float.exact_ratio y) as [dy|] eqn:Hy; try done.
  - by rewrite dyadic_add_swap.
  - destruct sp as [t|].
    + by rewrite special_add_swap.
    + by rewrite special_add_comm.
Qed.

Lemma sum_permutation (data data' : list float) :
  data ≡ₚ data' →
  ∀ fin sp, Float._sum data fin sp = Float._sum data' fin sp.
Proof.
  induction 1 as [|x l l' _ IH|x y l|l l' l'' _ IH _ IH']; intros fin sp.
  - done.
  - cbn [Float._sum]. destruct (Float.exact_ratio x); apply IH.
  - apply sum_swap.
  - by rewrite IH.
Qed.

Lemma mean_permutation (data data' : list float) :
  data ≡ₚ data' → Float.mean data = Float.mean data'.
Proof.
  intros Hp. unfold Float.mean.
  by rewrite (sum_permutation _ _ Hp), (Permutation_length Hp).
Qed.

Lemma score_permutation (l l' : list float) (m : gmap string float) :
  l ≡ₚ l' → score l m = score l' m.
Proof.
  intros Hp. unfold score.
  destruct l as [|x l], l' as [|x' l'].
  - done.
  - by apply Permutation_nil_cons in Hp.
  - symmetry in Hp. by apply Permutation_nil_cons in Hp.
  - by rewrite (mean_permutation _ _ Hp), (Permutation_length Hp).
Qed.

Section Order.

Context {S : Type} {host : Host S}.

(** X11. The metrics do not depend on the order of the records in the
    results file: for a list of entries the loop gets past, any
    reordering of the list loads a reordering of the same runtimes, and
    reordered runtimes give the same mean and the same metrics; so two
    runs of [evaluate] that read the two lists return the same
    metrics. *)
Theorem X11_metrics_ignore_record_order (items items' : list json) :
  Forall (λ e, tolerated e = true) items →
  items ≡ₚ items' →
  (∃ l l',
     collect_runtimes items [] = ret l
     ∧ collect_runtimes items' [] = ret l'
     ∧ l ≡ₚ l'
     ∧ Float.mean l = Float.mean l'
     ∧ score l initial_metrics = score l' initial_metrics)
  ∧ (∀ pp (w : world S) pp' (w' : world S),
       (_prepare_policy pp w).1.1 = true →
       (_prepare_policy pp' w').1.1 = true →
       path_exists (sys (benchmark_done pp w)) (results_path_of pp w) = true →
       path_exists (sys (benchmark_done pp' w')) (results_path_of pp' w') = true →
       json_load (sys (benchmark_done pp w)) (results_path_of pp w)
       = ret (JList items) →
       json_load (sys (benchmark_done pp' w')) (results_path_of pp' w')
       = ret (JList items') →
       metrics_result (evaluate pp w).1 = metrics_result (evaluate pp' w').1).
Proof.
  intros Hall Hperm.
  assert (Hall' : Forall (λ e, tolerated e = true) items')
    by (by rewrite <- Hperm).
  pose proof (collect_runtimes_acc items [] Hall) as Hl.
  pose proof (collect_runtimes_acc items' [] Hall') as Hl'.
  rewrite app_nil_l in Hl, Hl'.
  assert (Hruntimes : omap runtime_of items ≡ₚ omap runtime_of items')
    by (by rewrite Hperm).
  split.
  - exists (omap runtime_of items), (omap runtime_of items').
    repeat split; try done.
    + by apply mean_permutation.
    + by apply score_permutation.
  - intros pp w pp' w' Hok Hok' Hex Hex' Hload Hload'.
    rewrite (evaluate_staged _ _ Hok), (evaluate_staged _ _ Hok'). cbn [fst].
    unfold loaded_runtimes.
    rewrite (load_list _ _ _ Hex Hload), (load_list _ _ _ Hex' Hload').
    rewrite Hl, Hl'. simpl. f_equal. by apply score_permutation.
Qed.

End Order.

(** The example list and the same records in another order. *)
Lemma X11_reordered_example_run :
  ∃ l l',
    collect_runtimes aggregation_example [] = ret l
    ∧ collect_runtimes
        [run_record "cache_ext_test" (JFloat (Float.round_Z 4));
         run_record "cache_ext_test" (JFloat (Float.round_Z 2));
         run_record "other" (JFloat (Float.round_Z 99))] [] = ret l'
    ∧ l ≡ₚ l'
    ∧ Float.mean l = Float.mean l'
    ∧ score l initial_metrics = score l' initial_metrics.
Proof.
  refine (proj1 (X11_metrics_ignore_record_order (host := Mem.host Mem.idle)
                   aggregation_example _ _ _)).
  - repeat constructor.
  - unfold aggregation_example.
    etrans; [apply perm_skip, perm_swap|]. apply perm_swap.
Defined.

(** ** White space around the candidate path *)

Lemma rstrip_idemp (space : ascii → bool) (s : string) :
  Str.rstrip space (Str.rstrip space s) = Str.rstrip space s.
Proof.
  induction s as [|c r IH]; [done|].
  cbn [Str.rstrip].
  destruct (Str.rstrip space r) as [|d t] eqn:Hr.
  - destruct (space c) eqn:Hc; [done|]. cbn [Str.rstrip]. by rewrite Hc.
  - cbn [Str.rstrip]. cbn [Str.rstrip] in IH. by rewrite IH.
Qed.

Lemma lstrip_head (space : ascii → bool) (s : string) :
  match Str.lstrip space s with
  | EmptyString => True
  | String c _ => space c = false
  end.
Proof.
  induction s as [|c r IH]; [done|].
  cbn [Str.lstrip]. by destruct (space c) eqn:Hc.
Qed.

Lemma lstrip_rstrip_lstrip (space : ascii → bool) (s : string) :
  Str.lstrip space (Str.rstrip space (Str.lstrip space s))
  = Str.rstrip space (Str.lstrip space s).
Proof.
  pose proof (lstrip_head space s) as Hhead.
  destruct (Str.lstrip space s) as [|c r]; [done|].
  cbn [Str.rstrip].
  destruct (Str.rstrip space r); rewrite ?Hhead; cbn [Str.lstrip];
    by rewrite Hhead.
Qed.

Lemma strip_idemp (s : string) : Str.strip (Str.strip s) = Str.strip s.
Proof.
  unfold Str.strip. by rewrite lstrip_rstrip_lstrip, rstrip_idemp.
Qed.

Section Trimming.

Context {S : Type} {host : Host S}.

(** X16. White space around the candidate path does not matter:
    [_prepare_policy], and so [evaluate], do on a path what they do on
    the path with its leading and trailing white space removed. *)
Theorem X16_surrounding_space_is_ignored (p : string) (w : world S) :
  _prepare_policy (Some p) w = _prepare_policy (Some (Str.strip p)) w
  ∧ evaluate (Some p) w = evaluate (Some (Str.strip p)) w.
Proof.
  assert (Hprep : _prepare_policy (Some p) w
                  = _prepare_policy (Some (Str.strip p)) w).
  { unfold _prepare_policy. by rewrite strip_idemp. }
  split; [done|]. unfold evaluate. by rewrite Hprep.
Qed.

End Trimming.

(** ** Staging, case by case *)

Section StagingCases.

Context {S : Type} {host : Host S}.

(** X12. For a candidate that is not blank, staging succeeds exactly
    when the path passes the checks, the copy (if one is made) does not
    fail, the build script exists and the build exits with code 0; its
    diagnostics are then those of the copy and the build, with
    build_exit_code "0" and neither program_error nor build_error. *)
Theorem X12_staging_succeeds_exactly_when (p : string) (w : world S) :
  let staged := _prepare_policy (Some p) w in
  let built :=
    subprocess_run BUILD_SCRIPT REPO_ROOT (sys (copy_step p w).2) in
  Str.strip p ≠ "" →
  (staged.1.1 = true
   ↔ acceptable p w = true
     ∧ (copy_step p w).1 = None
     ∧ path_exists (sys (copy_step p w).2) BUILD_SCRIPT = true
     ∧ cp_returncode built.1 = 0)
  ∧ (staged.1.1 = true →
     staged.1.2 = build_artifacts (copy_artifacts p w) built.1
     ∧ staged.1.2 !! "build_exit_code" = Some "0"
     ∧ staged.1.2 !! "program_error" = None
     ∧ staged.1.2 !! "build_error" = None).
Proof.
  intros staged built Hp. unfold staged, built.
  assert (Hiff : (_prepare_policy (Some p) w).1.1 = true
    ↔ acceptable p w = true
      ∧ (copy_step p w).1 = None
      ∧ path_exists (sys (copy_step p w).2) BUILD_SCRIPT = true
      ∧ cp_returncode
          (subprocess_run BUILD_SCRIPT REPO_ROOT (sys (copy_step p w).2)).1
        = 0).
  { split.
    - intros Hok.
      destruct (acceptable p w) eqn:Hacc.
      + rewrite prepare_acceptable in Hok by done.
        destruct ((copy_step p w).1) as [exc|] eqn:Hcp; [done|].
        destruct (path_exists (sys (copy_step p w).2) BUILD_SCRIPT) eqn:Hb;
          [|by rewrite build_missing in Hok].
        rewrite build_ran in Hok by done. cbn [fst snd] in Hok.
        by apply bool_decide_eq_true in Hok.
      + assert (Hfail : staging_failure p w); [|by apply staging_failure_iff in Hfail; congruence].
        destruct (path_exists (sys w) (source_path_of p)) eqn:Hex;
          [|by apply NotFound].
        destruct (path_is_file (sys w) (source_path_of p)) eqn:Hfile;
          [|by apply NotRegular].
        apply WrongType; try done. intros Hsuf.
        unfold acceptable in Hacc. rewrite Hex, Hfile, Hsuf in Hacc.
        apply String.eqb_neq in Hp. by rewrite Hp in Hacc.
    - intros (Hacc & Hcp & Hb & Hrc).
      rewrite prepare_acceptable, Hcp by done.
      rewrite build_ran by done. cbn [fst snd].
      by apply bool_decide_eq_true. }
  split; [done|].
  intros (Hacc & Hcp & Hb & Hrc)%Hiff.
  rewrite prepare_acceptable, Hcp by done.
  rewrite build_ran by done. cbn [fst snd].
  rewrite bool_decide_eq_true_2 by done.
  split; [done|]. unfold build_artifacts. rewrite Hrc.
  split; [by rewrite lookup_insert_eq|].
  rewrite !lookup_insert_ne by done.
  unfold copy_artifacts.
  destruct (same_file p w); by rewrite ?lookup_singleton_ne, ?lookup_empty.
Qed.

(** X13. The calls of staging: nothing for a candidate that is absent,
    blank or fails the checks on its path; otherwise a copy from the
    resolved candidate to the resolved destination unless the two are
    the same path, followed, when the copy did not fail and the build
    script exists, by one run of the build script from the repository
    root. A file is never copied onto itself and the build never comes
    before the copy. *)
Theorem X13_calls_of_staging (p : string) (w : world S) :
  let copy :=
    CopyFile (path_resolve (sys w) (source_path_of p))
             (path_resolve (sys w) POLICY_DEST) in
  let proceeds :=
    match (copy_step p w).1 with
    | None => path_exists (sys (copy_step p w).2) BUILD_SCRIPT
    | Some _ => false
    end in
  calls (_prepare_policy None w).2 = calls w
  ∧ calls (_prepare_policy (Some p) w).2
    = (calls w
       ++ (if acceptable p w
           then (if same_file p w then [] else [copy])
                ++ (if proceeds then [RunBuild BUILD_SCRIPT REPO_ROOT] else [])
           else []))%list.
Proof.
  intros copy proceeds. unfold copy, proceeds. split; [done|].
  destruct (acceptable p w) eqn:Hacc.
  - rewrite prepare_acceptable by done.
    assert (Hcopy : calls (copy_step p w).2
      = (calls w ++ (if same_file p w then []
                     else [CopyFile (path_resolve (sys w) (source_path_of p))
                                    (path_resolve (sys w) POLICY_DEST)]))%list).
    { unfold copy_step. destruct (same_file p w); [by rewrite app_nil_r|].
      by destruct (copyfile _ _ _). }
    destruct ((copy_step p w).1) as [exc|] eqn:Hcp; cbn [fst snd].
    + by rewrite Hcopy, app_nil_r.
    + destruct (path_exists (sys (copy_step p w).2) BUILD_SCRIPT) eqn:Hb.
      * rewrite build_ran by done. cbn [snd did calls].
        by rewrite Hcopy, app_assoc.
      * rewrite build_missing by done. cbn [snd].
        by rewrite Hcopy, app_nil_r.
  - rewrite app_nil_r.
    destruct (decide (Str.strip p = "")) as [Hp|Hp];
      [by rewrite prepare_blank|].
    destruct (path_exists (sys w) (source_path_of p)) eqn:Hex;
      [|by rewrite prepare_absent by auto].
    destruct (path_is_file (sys w) (source_path_of p)) eqn:Hfile;
      [|by rewrite prepare_absent by auto].
    rewrite prepare_wrong_type; try done.
    intros Hsuf. unfold acceptable in Hacc.
    rewrite Hex, Hfile, Hsuf in Hacc. simpl in Hacc.
    apply String.eqb_neq in Hp. by rewrite Hp in Hacc.
Qed.

(** X14. When the copy of an acceptable candidate fails, staging
    returns at once: the only diagnostic is program_error, which names
    the destination and carries the text of the error; the build is not
    run, and [evaluate] returns the no-signal metrics without making
    the results directory. *)
Theorem X14_failed_copy_stops_staging
    (p : string) (w : world S) (exc : string) :
  acceptable p w = true →
  (copy_step p w).1 = Some exc →
  evaluate (Some p) w
  = (ret {| metrics := no_signal;
            artifacts :=
              {[ "program_error" :=
                   "Failed to copy BPF program to " ++ POLICY_DEST
                   ++ ": " ++ exc ]} |},
     (copy_step p w).2)
  ∧ calls (evaluate (Some p) w).2
    = (calls w ++ [CopyFile (path_resolve (sys w) (source_path_of p))
                            (path_resolve (sys w) POLICY_DEST)])%list.
Proof.
  intros Hacc Hcp.
  assert (Hprep : _prepare_policy (Some p) w
    = ((false,
        {[ "program_error" :=
             "Failed to copy BPF program to " ++ POLICY_DEST ++ ": " ++ exc ]}),
       (copy_step p w).2)).
  { by rewrite prepare_acceptable, Hcp. }
  assert (Hev : evaluate (Some p) w
    = (ret {| metrics := no_signal;
              artifacts :=
                {[ "program_error" :=
                     "Failed to copy BPF program to " ++ POLICY_DEST
                     ++ ": " ++ exc ]} |},
       (copy_step p w).2)).
  { rewrite evaluate_failed by (by rewrite Hprep). rewrite Hprep. cbn [fst snd].
    unfold dict_update. by rewrite (right_id_L ∅ (∪)). }
  split; [done|]. rewrite Hev. cbn [snd].
  unfold copy_step in *.
  destruct (same_file p w); [done|]. by destruct (copyfile _ _ _).
Qed.

(** X15. Once the build script is run, its output and exit code are
    recorded whatever the outcome: build_stdout, build_stderr and
    build_exit_code hold what the process returned; staging succeeds
    exactly when the exit code is 0, and build_error is present exactly
    when it is not. *)
Theorem X15_build_is_recorded_whatever_the_outcome
    (p : string) (w : world S) :
  let staged := _prepare_policy (Some p) w in
  let built :=
    subprocess_run BUILD_SCRIPT REPO_ROOT (sys (copy_step p w).2) in
  acceptable p w = true →
  (copy_step p w).1 = None →
  path_exists (sys (copy_step p w).2) BUILD_SCRIPT = true →
  staged.1.2 !! "build_stdout" = Some (cp_stdout built.1)
  ∧ staged.1.2 !! "build_stderr" = Some (cp_stderr built.1)
  ∧ staged.1.2 !! "build_exit_code" = Some (pretty (cp_returncode built.1))
  ∧ (staged.1.1 = true ↔ cp_returncode built.1 = 0)
  ∧ (is_Some (staged.1.2 !! "build_error") ↔ cp_returncode built.1 ≠ 0)
  ∧ sys staged.2 = built.2.
Proof.
  intros staged built Hacc Hcp Hb. unfold staged, built.
  rewrite prepare_acceptable, Hcp by done.
  rewrite build_ran by done. cbn [fst snd sys did].
  assert (Hno : build_artifacts (copy_artifacts p w)
                  (subprocess_run BUILD_SCRIPT REPO_ROOT
                     (sys (copy_step p w).2)).1 !! "build_error" = None).
  { unfold build_artifacts, copy_artifacts.
    rewrite !lookup_insert_ne by done.
    destruct (same_file p w); by rewrite ?lookup_singleton_ne, ?lookup_empty. }
  destruct (decide (cp_returncode
              (subprocess_run BUILD_SCRIPT REPO_ROOT
                 (sys (copy_step p w).2)).1 = 0)) as [Hrc|Hrc].
  - rewrite bool_decide_eq_true_2 by done.
    split; [by unfold build_artifacts; simplify_map_eq|].
    split; [by unfold build_artifacts; simplify_map_eq|].
    split; [by unfold build_artifacts; simplify_map_eq|].
    split; [done|]. split; [|done].
    rewrite Hno. split; [by intros []|done].
  - rewrite bool_decide_eq_false_2 by done.
    split; [by unfold build_artifacts; simplify_map_eq|].
    split; [by unfold build_artifacts; simplify_map_eq|].
    split; [by unfold build_artifacts; simplify_map_eq|].
    split; [done|]. split; [|done].
    rewrite lookup_insert_eq. split; [done|eauto].
Qed.

End StagingCases.

(** A candidate beside the checkout: it is copied, then the build runs. *)
Lemma X12_candidate_run :
  let staged :=
    _prepare_policy (host := Mem.host Mem.idle) (Some Mem.candidate_c)
                    (Mem.boot Mem.with_candidate) in
  staged.1.1 = true
  ∧ staged.1.2 !! "copied_policy_from" = Some Mem.candidate_c
  ∧ staged.1.2 !! "build_exit_code" = Some "0"
  ∧ staged.1.2 !! "build_error" = None
  ∧ calls staged.2
    = [CopyFile Mem.candidate_c Mem.policy_c;
       RunBuild Mem.build_sh "/home/user/cache_ext"].
Proof.
  intros staged.
  destruct (X12_staging_succeeds_exactly_when (host := Mem.host Mem.idle)
              Mem.candidate_c (Mem.boot Mem.with_candidate))
    as [Hiff Harts]; [discriminate|].
  assert (Hok : staged.1.1 = true) by (apply Hiff; by repeat split).
  destruct (Harts Hok) as (Hmap & Hcode & _ & Hnone).
  split; [exact Hok|]. split; [reflexivity|].
  split; [exact Hcode|]. split; [exact Hnone|reflexivity].
Defined.

(** The destination is a directory: the copy fails. *)
Lemma X14_blocked_destination_run :
  (evaluate (host := Mem.host Mem.idle) (Some Mem.candidate_c)
            (Mem.boot Mem.blocked_destination)).1
  = ret {| metrics := no_signal;
           artifacts :=
             {[ "program_error" :=
                  "Failed to copy BPF program to "
                  ++ "/home/user/cache_ext/policies/cache_ext_agent.bpf.c"
                  ++ ": is a directory: "
                  ++ "/home/user/cache_ext/policies/cache_ext_agent.bpf.c" ]} |}
  ∧ calls (evaluate (host := Mem.host Mem.idle) (Some Mem.candidate_c)
                    (Mem.boot Mem.blocked_destination)).2
    = [CopyFile Mem.candidate_c Mem.policy_c].
Proof.
  destruct (X14_failed_copy_stops_staging (host := Mem.host Mem.idle)
              Mem.candidate_c (Mem.boot Mem.blocked_destination)
              ("is a directory: " ++ Mem.policy_c))
    as [Hev Hcalls]; [reflexivity..|].
  split; [by rewrite Hev|exact Hcalls].
Defined.

(** A build that exits with code 2 after the copy of a candidate. *)
Lemma X15_failed_build_run :
  let staged :=
    _prepare_policy (host := Mem.host (Mem.failing_build 2))
                    (Some Mem.candidate_c) (Mem.boot Mem.with_candidate) in
  staged.1.2 !! "build_stderr" = Some "error"
  ∧ staged.1.2 !! "build_exit_code" = Some "2"
  ∧ is_Some (staged.1.2 !! "build_error")
  ∧ staged.1.1 = false.
Proof.
  intros staged.
  destruct (X15_build_is_recorded_whatever_the_outcome
              (host := Mem.host (Mem.failing_build 2))
              Mem.candidate_c (Mem.boot Mem.with_candidate))
    as (_ & Herr & Hcode & _ & Hbe & _); [reflexivity..|].
  split; [exact Herr|]. split; [exact Hcode|].
  split; [by apply Hbe|reflexivity].
Defined.

(** ** [evaluate] as a whole *)

Section Whole.

Context {S : Type} {host : Host S}.

Lemma metrics_of_dom (a c s : float) : dom (metrics_of a c s) = metric_names.
Proof.
  unfold metrics_of, metric_names. rewrite !dom_insert_L. set_solver.
Qed.

(** X17. Whenever [evaluate] returns, its metrics have exactly the
    three keys cache_ext_avg_runtime_sec, cache_ext_run_count and
    combined_score; and unless staging succeeded and some runtime was
    loaded, they are the no-signal metrics 0.0, 0.0 and minus
    infinity. *)
Theorem X17_metrics_always_have_three_keys
    (program_path : option string) (w : world S) :
  match (evaluate program_path w).1 with
  | inr res =>
      dom (metrics res) = metric_names
      ∧ ((_prepare_policy program_path w).1.1 = false
         ∨ loaded_runtimes program_path w = ret [] →
         metrics res
         = metrics_of Float.pos_zero Float.pos_zero Float.neg_inf)
  | inl _ => True
  end.
Proof.
  destruct ((_prepare_policy program_path w).1.1) eqn:Hok.
  - rewrite (evaluate_staged _ _ Hok). cbn [fst].
    destruct (loaded_runtimes program_path w) as [e|runtimes]; [done|].
    cbn [bind ret metrics]. split.
    + destruct runtimes as [|x l].
      * rewrite score_empty, no_signal_metrics. apply metrics_of_dom.
      * rewrite score_metrics by done. apply metrics_of_dom.
    + intros [|[= ->]]; [done|]. exact no_signal_metrics.
  - rewrite (evaluate_failed _ _ Hok). cbn [fst ret metrics].
    rewrite no_signal_metrics. split; [apply metrics_of_dom|done].
Qed.

Lemma evaluate_calls (program_path : option string) (w : world S) :
  calls (evaluate program_path w).2
  = (calls (_prepare_policy program_path w).2
     ++ (if (_prepare_policy program_path w).1.1
         then MkDir RESULTS_DIR
              :: (if path_exists (sys (results_dir_ready program_path w))
                                 run_script
                  then [StartBenchmark run_script
                          (results_filename_of program_path w) FILESEARCH_DIR]
                  else [])
         else []))%list.
Proof.
  destruct ((_prepare_policy program_path w).1.1) eqn:Hok.
  - rewrite (evaluate_staged _ _ Hok). cbn [snd].
    unfold benchmark_done. rewrite run_stage_world.
    destruct (path_exists _ run_script); unfold results_dir_ready, did;
      cbn [calls]; by rewrite <- ?app_assoc.
  - rewrite (evaluate_failed _ _ Hok). cbn [snd]. by rewrite app_nil_r.
Qed.

(** X18. The calls of [evaluate], in order: those of staging; then, only
    when staging succeeded, the making of the results directory; then,
    only when the benchmark script exists, one start of it, given the
    time-stamped name of the results file and started from the
    benchmark directory. When staging fails the results directory is
    not made. *)
Theorem X18_calls_of_evaluate (program_path : option string) (w : world S) :
  calls (evaluate program_path w).2
  = (calls (_prepare_policy program_path w).2
     ++ (if (_prepare_policy program_path w).1.1
         then MkDir RESULTS_DIR
              :: (if path_exists (sys (results_dir_ready program_path w))
                                 run_script
                  then [StartBenchmark run_script
                          (results_filename_of program_path w) FILESEARCH_DIR]
                  else [])
         else []))%list.
Proof. apply evaluate_calls. Qed.

(** X19. For a candidate path that does not exist or is not a regular
    file, [evaluate] changes nothing: it returns the no-signal metrics
    and the single diagnostic program_error, which ends with the path
    as it was examined, and the machine and the calls are as before. *)
Theorem X19_missing_candidate_changes_nothing (p : string) (w : world S) :
  Str.strip p ≠ "" →
  path_exists (sys w) (source_path_of p) = false
  ∨ path_is_file (sys w) (source_path_of p) = false →
  evaluate (Some p) w
  = (ret {| metrics := no_signal;
            artifacts :=
              {[ "program_error" :=
                   "Provided program_path does not exist or is not a file: "
                   ++ source_path_of p ]} |},
     w).
Proof.
  intros Hp Hno.
  pose proof (prepare_absent p w Hp Hno) as Hprep.
  rewrite evaluate_failed by (by rewrite Hprep). rewrite Hprep. cbn [fst snd].
  unfold dict_update. by rewrite (right_id_L ∅ (∪)).
Qed.

(** X21. After a successful staging the diagnostics [evaluate] returns
    are the entries of staging together with those of the benchmark
    stage, all of them and nothing else. *)
Theorem X21_diagnostics_are_the_union
    (program_path : option string) (w : world S) (res : EvaluationResult) :
  (_prepare_policy program_path w).1.1 = true →
  (evaluate program_path w).1 = ret res →
  ∀ k v,
    artifacts res !! k = Some v
    ↔ (_prepare_policy program_path w).1.2 !! k = Some v
      ∨ run_artifacts_of program_path w !! k = Some v.
Proof.
  intros Hok. rewrite (evaluate_staged _ _ Hok). cbn [fst].
  destruct (loaded_runtimes program_path w) as [e|runtimes]; [done|].
  intros [= <-] k v. cbn [artifacts]. unfold dict_update.
  rewrite (right_id_L ∅ (∪)).
  pose proof (prepare_keys program_path w) as Hprep.
  pose proof (run_script_keys (results_filename_of program_path w)
                (results_dir_ready program_path w)) as Hrun.
  fold (run_artifacts_of program_path w) in Hrun.
  pose proof keys_disjoint as Hdisj.
  rewrite lookup_union_Some_raw. split.
  - intros [Hr|[_ Hs]]; auto.
  - intros [Hs|Hr]; [|by left]. right. split; [|done].
    apply not_elem_of_dom. apply elem_of_dom_2 in Hs. set_solver.
Qed.

(** X20. Run as a program, the module evaluates without a candidate:
    nothing is copied or built, the diagnostics are those of the
    benchmark stage only, and the calls are the making of the results
    directory and, when the script exists, one start of the
    benchmark. *)
Theorem X20_main_stages_nothing (w : world S) :
  main w = evaluate None w
  ∧ List.filter is_copy_call (calls (main w).2)
    = List.filter is_copy_call (calls w)
  ∧ List.filter is_build_call (calls (main w).2)
    = List.filter is_build_call (calls w)
  ∧ match (main w).1 with
    | inr res => artifacts res = run_artifacts_of None w
    | inl _ => True
    end.
Proof.
  unfold main. split; [done|].
  pose proof (evaluate_calls None w) as Hcalls.
  rewrite prepare_none in Hcalls. cbn [fst snd] in Hcalls.
  rewrite Hcalls, !List.filter_app. cbn [List.filter is_copy_call is_build_call].
  split; [|split].
  - destruct (path_exists _ _); by rewrite app_nil_r.
  - destruct (path_exists _ _); by rewrite app_nil_r.
  - rewrite (evaluate_staged None w eq_refl). cbn [fst].
    destruct (loaded_runtimes None w) as [e|runtimes]; [done|].
    cbn [bind ret artifacts]. rewrite prepare_none. cbn [fst snd].
    unfold dict_update. by rewrite !(right_id_L ∅ (∪)).
Qed.

End Whole.

(** A candidate path that does not exist on the in-memory machine. *)
Lemma X19_no_such_file_run :
  evaluate (host := Mem.host Mem.idle) (Some " /nowhere/p.c ")
           (Mem.boot Mem.checkout)
  = (ret {| metrics := no_signal;
            artifacts :=
              {[ "program_error" :=
                   "Provided program_path does not exist or is not a file: "
                   ++ "/nowhere/p.c" ]} |},
     Mem.boot Mem.checkout).
Proof.
  apply (X19_missing_candidate_changes_nothing (host := Mem.host Mem.idle)
           " /nowhere/p.c " (Mem.boot Mem.checkout)); [discriminate|].
  left. reflexivity.
Defined.

(** The diagnostics of a run with a candidate: the copy, the build and
    the benchmark. *)
Lemma X21_candidate_run :
  ∃ res,
    (evaluate (host := Mem.host Mem.idle) (Some Mem.candidate_c)
              (Mem.boot Mem.with_candidate)).1 = ret res
    ∧ artifacts res !! "copied_policy_from" = Some Mem.candidate_c
    ∧ artifacts res !! "run_exit_code" = Some "0".
Proof.
  eexists. split; [reflexivity|].
  pose proof (X21_diagnostics_are_the_union (host := Mem.host Mem.idle)
                (Some Mem.candidate_c) (Mem.boot Mem.with_candidate) _
                eq_refl eq_refl) as Hunion.
  split; apply Hunion; [left|right]; reflexivity.
Defined.
